(** * Order execution and position reconciliation of ibtrader

    A shallow embedding of the parts of [position_manager.py],
    [trading_app.py] and [execution_strategies/] that decide how fills,
    order-status callbacks, option settlement and the execution strategies
    act on the ledgers and on the broker gateway.

    Conventions of the embedding:
    - Python numbers (quantities, prices, seconds) are rationals [Q]; the
      comparisons of the source are the boolean [Qeq_bool], [Qle_bool] and
      [Qltb] below.  Rounding of floats is not modelled (the arithmetic is
      exact).
    - A Python [dict] keyed by strings is an association list in insertion
      order: assignment to an existing key replaces in place, a new key is
      appended, exactly as CPython's dict does.  Iteration order matters for
      [_find_matching_position_internal], which returns the first match.
    - [uuid4()] is a counter in the state; [gen_uuid n] is the n-th id.
    - Timestamps ([last_updated], [timestamp]) are not modelled. *)

From Stdlib Require Import String Ascii List ZArith QArith Bool Lia.
From Stdlib Require Import HexString Qabs Qround Qminmax Lqa.
Import ListNotations.

Open Scope Q_scope.
Open Scope string_scope.
Open Scope list_scope.

(** ** Python helpers *)

Definition Qltb (x y : Q) : bool := negb (Qle_bool y x).

Definition streq (a b : string) : bool := String.eqb a b.

(** [str.upper] on the ASCII range. *)
Definition upper_ascii (c : ascii) : ascii :=
  let n := nat_of_ascii c in
  if andb (Nat.leb 97 n) (Nat.leb n 122) then ascii_of_nat (n - 32) else c.

Fixpoint upper (s : string) : string :=
  match s with
  | EmptyString => EmptyString
  | String c r => String (upper_ascii c) (upper r)
  end.

(** Python truthiness of a string: the empty string is falsy. *)
Definition str_truthy (s : string) : bool := negb (streq s "").

(** [uuid4()]: the n-th id handed out. *)
Definition gen_uuid (n : nat) : string := ("uuid-" ++ HexString.of_nat n)%string.

(** ** Dictionaries *)

Definition dict (V : Type) := list (string * V).

Fixpoint dget {V} (k : string) (d : dict V) : option V :=
  match d with
  | [] => None
  | (k', v) :: r => if streq k k' then Some v else dget k r
  end.

(** [d[k] = v]: replace in place, or append a new key. *)
Fixpoint dset {V} (k : string) (v : V) (d : dict V) : dict V :=
  match d with
  | [] => [(k, v)]
  | (k', v') :: r => if streq k k' then (k', v) :: r else (k', v') :: dset k v r
  end.

(** ** Data model *)

(** A position dict of [self.positions]. *)
Record position := mkPosition {
  pos_symbol : string;
  pos_quantity : Q;
  pos_avg_price : Q;
  pos_strategy_id : string;
  pos_instrument_type : string;
  pos_strike : option Q;
  pos_expiry : option string;
  pos_option_type : option string;
  pos_pair_id : option string
}.

(** An order dict of [self.orders].  [ord_last_processed_fill] is
    [order.get('last_processed_fill', 0)]: the synthetic settlement orders do
    not carry the key and read as 0. *)
Record order := mkOrder {
  ord_symbol : string;
  ord_action : string;
  ord_quantity : Q;
  ord_position_id : string;
  ord_strategy_id : string;
  ord_instrument_type : string;
  ord_strike : option Q;
  ord_expiry : option string;
  ord_option_type : option string;
  ord_pair_id : option string;
  ord_last_processed_fill : Q;
  ord_fill_processed : bool
}.

(** The state of a [PositionManager]. *)
Record pm_state := mkPM {
  orders : dict order;
  positions : dict position;
  uuid_next : nat
}.

Definition set_positions (st : pm_state) (ps : dict position) : pm_state :=
  mkPM (orders st) ps (uuid_next st).

Definition set_orders (st : pm_state) (os : dict order) : pm_state :=
  mkPM os (positions st) (uuid_next st).

(** [_generate_order_id] and [_generate_position_id]: both are [str(uuid4())]. *)
Definition generate_id (st : pm_state) : string * pm_state :=
  (gen_uuid (uuid_next st), mkPM (orders st) (positions st) (S (uuid_next st))).

(** ** PositionManager *)

Definition opt_eqb {A} (eqb : A -> A -> bool) (x y : option A) : bool :=
  match x, y with
  | Some a, Some b => eqb a b
  | None, None => true
  | _, _ => false
  end.

(** [_find_matching_position_internal]: first position in dict order whose
    identity fields match. *)
Fixpoint find_matching_position_internal (ps : dict position)
    (symbol instrument_type strategy_id : string)
    (strike : option Q) (expiry option_type : option string) : option string :=
  match ps with
  | [] => None
  | (position_id, p) :: rest =>
      if streq (pos_symbol p) symbol && streq (pos_strategy_id p) strategy_id
         && streq (pos_instrument_type p) instrument_type then
        if streq instrument_type "OPTION" then
          if opt_eqb Qeq_bool (pos_strike p) strike
             && opt_eqb streq (pos_expiry p) expiry
             && opt_eqb streq (pos_option_type p) option_type
          then Some position_id
          else find_matching_position_internal rest symbol instrument_type strategy_id
                 strike expiry option_type
        else if streq instrument_type "FUTURE" then
          if opt_eqb streq (pos_expiry p) expiry then Some position_id
          else find_matching_position_internal rest symbol instrument_type strategy_id
                 strike expiry option_type
        else Some position_id
      else find_matching_position_internal rest symbol instrument_type strategy_id
             strike expiry option_type
  end.

(** [_update_position_internal]: rebuild the position dict from the arguments
    and store it under [position_id]. *)
Definition update_position_internal (st : pm_state) (symbol : string)
    (quantity avg_price : Q) (instrument_type strategy_id position_id : string)
    (strike : option Q) (expiry option_type pair_id : option string) : pm_state :=
  let is_opt := streq instrument_type "OPTION" in
  let is_fut := streq instrument_type "FUTURE" in
  let p := mkPosition symbol quantity avg_price strategy_id instrument_type
             (if is_opt then strike else None)
             (if is_opt || is_fut then expiry else None)
             (if is_opt then option_type else None)
             (match pair_id with
              | Some s => if str_truthy s then Some s else None
              | None => None
              end) in
  set_positions st (dset position_id p (positions st)).

(** The average-price rule of [_process_fill_internal] (lines 263-278). *)
Definition new_avg_price (current_qty current_avg filled_qty fill_price new_quantity : Q) : Q :=
  if negb (Qeq_bool new_quantity 0) then
    if Qltb 0 (current_qty * new_quantity) then
      if Qltb (Qabs current_qty) (Qabs new_quantity) then
        ((Qabs current_qty * current_avg) + (Qabs filled_qty * fill_price)) / Qabs new_quantity
      else current_avg
    else fill_price
  else 0.

(** [current_position.get('quantity', 0)] and [.get('avg_price', 0)]. *)
Definition current_qty_avg (st : pm_state) (position_id : string) : Q * Q :=
  match dget position_id (positions st) with
  | Some p => (pos_quantity p, pos_avg_price p)
  | None => (0, 0)
  end.

Definition signed_fill (action : string) (new_fill_quantity : Q) : Q :=
  if streq action "BUY" then new_fill_quantity else - new_fill_quantity.

(** [_process_fill_internal] (and [process_fill], which only adds the lock). *)
Definition process_fill (st : pm_state) (order_id : string) (new_fill_quantity fill_price : Q)
  : pm_state :=
  match dget order_id (orders st) with
  | None => st
  | Some order =>
      let position_id := ord_position_id order in
      let '(current_qty, current_avg) := current_qty_avg st position_id in
      let filled_qty := signed_fill (ord_action order) new_fill_quantity in
      let new_quantity := current_qty + filled_qty in
      let avg := new_avg_price current_qty current_avg filled_qty fill_price new_quantity in
      update_position_internal st (ord_symbol order) new_quantity avg
        (ord_instrument_type order) (ord_strategy_id order) position_id
        (ord_strike order) (ord_expiry order) (ord_option_type order) (ord_pair_id order)
  end.

(** A sequence of fills: [(order_id, new_fill_quantity, fill_price)]. *)
Definition fill := (string * Q * Q)%type.

Fixpoint apply_fills (st : pm_state) (fs : list fill) : pm_state :=
  match fs with
  | [] => st
  | (oid, q, pr) :: r => apply_fills (process_fill st oid q pr) r
  end.

(** The price rule as the specification words it (section 4.1), to be
    compared with [new_avg_price]. *)
Definition same_sign (a b : Q) : bool :=
  (Qltb 0 a && Qltb 0 b) || (Qltb a 0 && Qltb b 0).

Definition spec_avg_price (current_qty current_avg delta fill_price new_quantity : Q) : Q :=
  if Qeq_bool new_quantity 0 then 0
  else if same_sign current_qty new_quantity then
    if Qltb (Qabs current_qty) (Qabs new_quantity) then
      (Qabs current_qty * current_avg + Qabs delta * fill_price) / Qabs new_quantity
    else current_avg
  else fill_price.


(** ** Signals, broker orders and the gateway *)

(** A trade instruction of the signal queue. *)
Record signal := mkSignal {
  sig_type : string;
  sig_ticker : string;
  sig_action : string;
  sig_quantity : Q;
  sig_strategy_id : string;
  sig_execution_strategy : option string;
  sig_execution_timeout : option Q;
  sig_limit_price : option Q
}.

(** The fields of an [ibapi.order.Order] the strategies set; [io_lmtPrice]
    is [None] while unset. *)
Record ib_order := mkIBOrder {
  io_action : string;
  io_totalQuantity : Q;
  io_orderType : string;
  io_tif : string;
  io_lmtPrice : option Q
}.

(** Calls made on the gateway.  [GwPlace ib o mapped] is
    [placeOrder(ib, contract, o)]; [mapped] records whether
    [ib_to_uuid_map] held an entry for [ib] at the moment of the call, which
    is when the gateway may start sending callbacks for [ib]. *)
Inductive gw_call :=
| GwPlace (ib : Z) (o : ib_order) (mapped : bool)
| GwCancel (ib : Z).

(** [dict] keyed by the integer broker order ids. *)
Fixpoint zget {V} (k : Z) (d : list (Z * V)) : option V :=
  match d with
  | [] => None
  | (k', v) :: r => if Z.eqb k k' then Some v else zget k r
  end.

Fixpoint zset {V} (k : Z) (v : V) (d : list (Z * V)) : list (Z * V) :=
  match d with
  | [] => [(k, v)]
  | (k', v') :: r => if Z.eqb k k' then (k', v) :: r else (k', v') :: zset k v r
  end.

Definition zmem {V} (k : Z) (d : list (Z * V)) : bool :=
  match zget k d with Some _ => true | None => false end.

(** ** Execution strategies of [execution_base.py]

    [IOCMarketOrderStrategy] (market.py), [LimitOrderStrategy] (limit.py) and
    the [DynamicLimitOrderStrategy] of limit_orders.py share the fields and
    methods of [execution_base.BaseExecutionStrategy]. *)
Inductive variant :=
| IOCMarket
| PlainLimit (limit_price : Q)
| DynamicLimit (timeout_seconds : Q).

Record xstrategy := mkX {
  xs_variant : variant;
  xs_signal : signal;
  xs_start_time : Q;
  xs_order_id : option string;
  xs_ib_order_id : option Z;
  xs_status : string;
  xs_current_order : option ib_order;
  xs_filled_quantity : Q;
  xs_avg_fill_price : Q;
  xs_has_partial_fill : bool;
  xs_attempts : nat;
  xs_converted_to_market : bool
}.

Definition xs_set_status (s : xstrategy) (status : string) : xstrategy :=
  mkX (xs_variant s) (xs_signal s) (xs_start_time s) (xs_order_id s) (xs_ib_order_id s)
    status (xs_current_order s) (xs_filled_quantity s) (xs_avg_fill_price s)
    (xs_has_partial_fill s) (xs_attempts s) (xs_converted_to_market s).

(** [BaseExecutionStrategy.process_order_status]. *)
Definition process_order_status (s : xstrategy) (status : string) (filled remaining avgFillPrice : Q)
  : xstrategy :=
  let s := mkX (xs_variant s) (xs_signal s) (xs_start_time s) (xs_order_id s) (xs_ib_order_id s)
             (xs_status s) (xs_current_order s) filled avgFillPrice
             (xs_has_partial_fill s) (xs_attempts s) (xs_converted_to_market s) in
  if Qltb 0 filled && Qltb 0 remaining then
    mkX (xs_variant s) (xs_signal s) (xs_start_time s) (xs_order_id s) (xs_ib_order_id s)
      "ACTIVE" (xs_current_order s) (xs_filled_quantity s) (xs_avg_fill_price s)
      true (xs_attempts s) (xs_converted_to_market s)
  else if streq status "Filled" then xs_set_status s "COMPLETED"
  else if streq status "Cancelled" then xs_set_status s "CANCELLED"
  else xs_set_status s "ACTIVE".

(** [BaseExecutionStrategy.is_complete]. *)
Definition is_complete (s : xstrategy) : bool :=
  existsb (streq (xs_status s)) ["COMPLETED"; "CANCELLED"].

(** ** The trading application *)

Record app := mkApp {
  app_pm : pm_state;
  next_order_id : option Z;
  ib_to_uuid_map : list (Z * string);
  active_executions : dict xstrategy;
  gw_log : list gw_call
}.

Definition app_set_pm (a : app) (st : pm_state) : app :=
  mkApp st (next_order_id a) (ib_to_uuid_map a) (active_executions a) (gw_log a).

Definition app_set_executions (a : app) (ex : dict xstrategy) : app :=
  mkApp (app_pm a) (next_order_id a) (ib_to_uuid_map a) ex (gw_log a).

(** [EClient.placeOrder] as seen from the application: the call is logged. *)
Definition placeOrder (a : app) (ib : Z) (o : ib_order) : app :=
  mkApp (app_pm a) (next_order_id a) (ib_to_uuid_map a) (active_executions a)
    (gw_log a ++ [GwPlace ib o (zmem ib (ib_to_uuid_map a))]).

Definition cancelOrder (a : app) (ib : Z) : app :=
  mkApp (app_pm a) (next_order_id a) (ib_to_uuid_map a) (active_executions a)
    (gw_log a ++ [GwCancel ib]).

Definition with_fill_progress (o : order) (filled : Q) (fill_processed : bool) : order :=
  mkOrder (ord_symbol o) (ord_action o) (ord_quantity o) (ord_position_id o)
    (ord_strategy_id o) (ord_instrument_type o) (ord_strike o) (ord_expiry o)
    (ord_option_type o) (ord_pair_id o) filled fill_processed.

(** [PositionManager.update_order(order_id, {'last_processed_fill': filled,
    'fill_processed': ...})] on an order of the ledger; [orderStatus] calls
    it only for an order it has just found there. *)
Definition update_order_progress (st : pm_state) (order_id : string) (filled : Q)
    (fill_processed : bool) : pm_state :=
  match dget order_id (orders st) with
  | Some o => set_orders st (dset order_id (with_fill_progress o filled fill_processed) (orders st))
  | None => st
  end.

(** [TradingApp.orderStatus], first half: the execution strategy of the
    order, if still active, sees the status. *)
Definition dispatch_status (a : app) (uuid_order_id : string) (status : string)
    (filled remaining avgFillPrice : Q) : app :=
  match dget uuid_order_id (active_executions a) with
  | Some s => app_set_executions a
                (dset uuid_order_id
                   (process_order_status s status filled remaining avgFillPrice)
                   (active_executions a))
  | None => a
  end.

(** [TradingApp.orderStatus], second half: the newly filled amount goes to
    the ledger and the order's progress is recorded. *)
Definition ledger_fill (a : app) (uuid_order_id : string) (filled remaining lastFillPrice : Q)
  : app :=
  match dget uuid_order_id (orders (app_pm a)) with
  | Some o =>
      if Qltb 0 filled then
        let new_fill_amount := filled - ord_last_processed_fill o in
        if Qltb 0 new_fill_amount then
          let st2 := process_fill (app_pm a) uuid_order_id new_fill_amount lastFillPrice in
          app_set_pm a (update_order_progress st2 uuid_order_id filled (Qeq_bool remaining 0))
        else a
      else a
  | None => a
  end.

(** [TradingApp.orderStatus]: an unmapped broker id is logged and dropped. *)
Definition orderStatus (a : app) (orderId : Z) (status : string)
    (filled remaining avgFillPrice lastFillPrice : Q) : app :=
  match zget orderId (ib_to_uuid_map a) with
  | None => a
  | Some uuid_order_id =>
      if negb (str_truthy uuid_order_id) then a
      else ledger_fill (dispatch_status a uuid_order_id status filled remaining avgFillPrice)
             uuid_order_id filled remaining lastFillPrice
  end.

(** ** Option settlement: [PositionManager.process_exercise] *)

Definition add_order (st : pm_state) (order_id : string) (o : order) : pm_state :=
  set_orders st (dset order_id o (orders st)).

(** The in-the-money test of [process_exercise]. *)
Definition option_is_itm (option_type : string) (strike close_price : Q) : bool :=
  if streq (upper option_type) "CALL" then Qltb strike close_price else Qltb close_price strike.

(** The synthetic order closing the option position (both branches). *)
Definition close_option_order (symbol : string) (position : position) (pos_id : string)
    (strike : Q) (option_type : string) : order :=
  mkOrder symbol (if Qltb (pos_quantity position) 0 then "BUY" else "SELL")
    (Qabs (pos_quantity position)) pos_id (pos_strategy_id position) "OPTION"
    (Some strike) (pos_expiry position) (Some option_type) None 0 false.

(** The BUY/SELL direction of the synthetic stock order. *)
Definition exercise_stock_action (is_call : bool) (quantity : Q) : string :=
  let is_exercise := Qltb 0 quantity in
  if Bool.eqb is_call is_exercise then "BUY" else "SELL".

(** The synthetic stock order of an exercise or assignment. *)
Definition exercise_stock_order (symbol : string) (position : position)
    (stock_position_id : string) (is_call : bool) : order :=
  mkOrder symbol (exercise_stock_action is_call (pos_quantity position))
    (Qabs (pos_quantity position) * 100) stock_position_id (pos_strategy_id position)
    "STOCK" None None None None 0 false.

(** [_find_matching_position_internal(...) or self._generate_position_id()]. *)
Definition stock_position_id_for (st : pm_state) (symbol strategy_id : string) : string * pm_state :=
  match find_matching_position_internal (positions st) symbol "STOCK" strategy_id None None None with
  | Some pid => if str_truthy pid then (pid, st) else generate_id st
  | None => generate_id st
  end.

(** [process_exercise]; [None] is a raised exception (a position without
    strike or option type). *)
Definition process_exercise (st : pm_state) (symbol : string) (position : position)
    (close_price : Q) (pos_id : string) : option pm_state :=
  match pos_strike position, pos_option_type position with
  | Some strike, Some option_type =>
      let quantity := pos_quantity position in
      let is_call := streq (upper option_type) "CALL" in
      let is_itm := if is_call then Qltb strike close_price else Qltb close_price strike in
      if is_itm then
        let '(oid1, st1) := generate_id st in
        let st2 := add_order st1 oid1 (close_option_order symbol position pos_id strike option_type) in
        let st3 := process_fill st2 oid1 (Qabs quantity) 0 in
        let '(stock_position_id, st4) := stock_position_id_for st3 symbol (pos_strategy_id position) in
        let stock_qty := Qabs quantity * 100 in
        let '(oid2, st5) := generate_id st4 in
        let st6 := add_order st5 oid2 (exercise_stock_order symbol position stock_position_id is_call) in
        Some (process_fill st6 oid2 stock_qty strike)
      else
        let '(oid1, st1) := generate_id st in
        let st2 := add_order st1 oid1 (close_option_order symbol position pos_id strike option_type) in
        Some (process_fill st2 oid1 (Qabs quantity) 0)
  | _, _ => None
  end.

(** The ids [uuid4()] hands out from now on are new to both ledgers. *)
Definition ids_fresh (st : pm_state) : Prop :=
  forall m, (uuid_next st <= m)%nat ->
  dget (gen_uuid m) (orders st) = None /\ dget (gen_uuid m) (positions st) = None.

(** ** Market data ([DataModule]) *)

Record quote := mkQuote { q_bid : option Q; q_ask : option Q; q_last : option Q }.

Record market := mkMarket {
  streaming_data : dict quote;
  tick_sizes : dict Q
}.

(** [streaming_data.get(symbol, {})]: a missing entry reads as all-None. *)
Definition get_quote (m : market) (symbol : string) : quote :=
  match dget symbol (streaming_data m) with
  | Some qt => qt
  | None => mkQuote None None None
  end.

Definition get_tick_size (m : market) (symbol : string) : option Q := dget symbol (tick_sizes m).

(** Python's [round] on a float: nearest integer, ties to even. *)
Definition round_half_even (x : Q) : Z :=
  let f := Qfloor x in
  let r := x - inject_Z f in
  if Qltb r (1 # 2) then f
  else if Qltb (1 # 2) r then (f + 1)%Z
  else if Z.even f then f else (f + 1)%Z.

(** The result of a Python call: a value, or an exception raised. *)
Inductive result (A : Type) := Returned (a : A) | Raises.
Arguments Returned {A} a.
Arguments Raises {A}.

(** [ticks = round(mid_price / tick_size); price = ticks * tick_size]. *)
Definition tick_round (mid_price tick_size : Q) : result Q :=
  if Qeq_bool tick_size 0 then Raises
  else Returned (inject_Z (round_half_even (mid_price / tick_size)) * tick_size).

Definition positive_price (p : option Q) : option Q :=
  match p with Some x => if Qltb 0 x then Some x else None | None => None end.

(** ** [DynamicLimitOrderStrategy] of limit_orders.py *)

(** The limit price of [create_order]: [Returned None] is the explicit "no
    order" ([return None]). *)
Definition dl_create_price (action : string) (qt : quote) (tick_size : Q) : result (option Q) :=
  match positive_price (q_bid qt), positive_price (q_ask qt) with
  | Some bid, Some ask =>
      match tick_round ((bid + ask) / 2) tick_size with
      | Raises => Raises
      | Returned price =>
          if streq action "BUY" then
            Returned (Some (if Qle_bool ask price then bid else price))
          else
            Returned (Some (if Qle_bool price bid then ask else price))
      end
  | _, _ => Returned (positive_price (q_last qt))
  end.

(** [DynamicLimitOrderStrategy.create_order] (limit_orders.py), for the
    instrument key [symbol] ([_get_full_symbol]). *)
Definition dl_create_order (sig : signal) (m : market) (symbol : string) : result (option ib_order) :=
  match get_tick_size m symbol with
  | None => Returned None
  | Some tick_size =>
      match dl_create_price (sig_action sig) (get_quote m symbol) tick_size with
      | Raises => Raises
      | Returned None => Returned None
      | Returned (Some price) =>
          Returned (Some (mkIBOrder (sig_action sig) (sig_quantity sig) "LMT" "DAY" (Some price)))
      end
  end.

(** Field overrides of [modify_order]. *)
Inductive order_change :=
| SetOrderType (t : string)
| SetTif (t : string)
| SetLmtPrice (p : Q).

Definition apply_change (o : ib_order) (c : order_change) : ib_order :=
  match c with
  | SetOrderType t => mkIBOrder (io_action o) (io_totalQuantity o) t (io_tif o) (io_lmtPrice o)
  | SetTif t => mkIBOrder (io_action o) (io_totalQuantity o) (io_orderType o) t (io_lmtPrice o)
  | SetLmtPrice p => mkIBOrder (io_action o) (io_totalQuantity o) (io_orderType o) (io_tif o) (Some p)
  end.

Definition xs_set_current (s : xstrategy) (o : option ib_order) : xstrategy :=
  mkX (xs_variant s) (xs_signal s) (xs_start_time s) (xs_order_id s) (xs_ib_order_id s)
    (xs_status s) o (xs_filled_quantity s) (xs_avg_fill_price s)
    (xs_has_partial_fill s) (xs_attempts s) (xs_converted_to_market s).

Definition xs_set_converted (s : xstrategy) : xstrategy :=
  mkX (xs_variant s) (xs_signal s) (xs_start_time s) (xs_order_id s) (xs_ib_order_id s)
    (xs_status s) (xs_current_order s) (xs_filled_quantity s) (xs_avg_fill_price s)
    (xs_has_partial_fill s) (xs_attempts s) true.

Definition xs_incr_attempts (s : xstrategy) : xstrategy :=
  mkX (xs_variant s) (xs_signal s) (xs_start_time s) (xs_order_id s) (xs_ib_order_id s)
    (xs_status s) (xs_current_order s) (xs_filled_quantity s) (xs_avg_fill_price s)
    (xs_has_partial_fill s) (S (xs_attempts s)) (xs_converted_to_market s).

(** [BaseExecutionStrategy.modify_order]: re-submit the current order under
    the same broker id with the fields overridden. *)
Definition modify_order (s : xstrategy) (a : app) (changes : list order_change) : xstrategy * app :=
  match xs_ib_order_id s, xs_current_order s with
  | Some ib, Some cur =>
      if negb (Z.eqb ib 0) && streq (xs_status s) "ACTIVE" then
        let modified := fold_left apply_change changes cur in
        (xs_set_current s (Some modified), placeOrder a ib modified)
      else (s, a)
  | _, _ => (s, a)
  end.

(** [timeout_exceeded]: strictly more than [timeout] seconds since start. *)
Definition timeout_exceeded (s : xstrategy) (now timeout : Q) : bool :=
  Qltb timeout (now - xs_start_time s).

Definition effective_timeout (timeout_seconds : Q) (has_partial_fill : bool) : Q :=
  if has_partial_fill then timeout_seconds * (3 # 2) else timeout_seconds.

Definition market_conversion : list order_change :=
  [SetOrderType "MKT"; SetTif "IOC"; SetLmtPrice 0].

Definition opt_str_truthy (o : option string) : bool :=
  match o with Some u => str_truthy u | None => false end.

(** The re-pricing half of [check_and_update]; a [ZeroDivisionError] is
    caught by [monitor_executions] and leaves the strategy as it was. *)
Definition dl_reprice (s : xstrategy) (a : app) (m : market) (symbol : string) : xstrategy * app :=
  let sig := xs_signal s in
  let skip_for_fill :=
    if xs_has_partial_fill s then
      if Qeq_bool (sig_quantity sig) 0 then None
      else Some (Qle_bool (1 # 4) (xs_filled_quantity s / sig_quantity sig))
    else Some false in
  match skip_for_fill with
  | None => (s, a)
  | Some true => (s, a)
  | Some false =>
      match get_tick_size m symbol with
      | None => (s, a)
      | Some tick_size =>
          let qt := get_quote m symbol in
          match q_bid qt, q_ask qt with
          | Some bid, Some ask =>
              match tick_round ((bid + ask) / 2) tick_size with
              | Raises => (s, a)
              | Returned p =>
                  let new_price :=
                    if streq (sig_action sig) "BUY" then (if Qle_bool ask p then bid else p)
                    else (if Qle_bool p bid then ask else p) in
                  match xs_current_order s with
                  | Some cur =>
                      if opt_eqb Qeq_bool (Some new_price) (io_lmtPrice cur) then (s, a)
                      else
                        let '(s1, a1) := modify_order s a [SetLmtPrice new_price] in
                        (xs_incr_attempts s1, a1)
                  | None => (s, a)
                  end
              end
          | _, _ => (s, a)
          end
      end
  end.

(** [check_and_update] of the three [execution_base] variants at time [now];
    IOC-Market and Plain-Limit do nothing. *)
Definition check_and_update (s : xstrategy) (a : app) (m : market) (symbol : string) (now : Q)
  : xstrategy * app :=
  match xs_variant s with
  | DynamicLimit timeout_seconds =>
      if negb (streq (xs_status s) "ACTIVE") || negb (opt_str_truthy (xs_order_id s)) then (s, a)
      else if negb (xs_converted_to_market s)
              && timeout_exceeded s now (effective_timeout timeout_seconds (xs_has_partial_fill s))
      then
        let '(s1, a1) := modify_order s a market_conversion in
        (xs_set_converted s1, a1)
      else if negb (xs_converted_to_market s) && Nat.ltb (xs_attempts s) 3 then
        dl_reprice s a m symbol
      else (s, a)
  | _ => (s, a)
  end.

(** [BaseExecutionStrategy.place_order] (execution_base.py). *)
Definition place_order (s : xstrategy) (a : app) (o : ib_order) : xstrategy * app :=
  match next_order_id a with
  | Some n =>
      if Z.eqb n 0 then (s, a) else
      let '(uuid, pm') := generate_id (app_pm a) in
      let a1 := mkApp pm' (Some (n + 1)%Z) (zset n uuid (ib_to_uuid_map a))
                  (active_executions a) (gw_log a) in
      let s1 := mkX (xs_variant s) (xs_signal s) (xs_start_time s) (Some uuid) (Some n)
                  (xs_status s) (Some o) (xs_filled_quantity s) (xs_avg_fill_price s)
                  (xs_has_partial_fill s) (xs_attempts s) (xs_converted_to_market s) in
      (xs_set_status s1 "ACTIVE", placeOrder a1 n o)
  | None => (s, a)
  end.

(** ** The legacy strategy module [execution_strategies/dynamic_limit.py]

    The file carries its own [BaseExecutionStrategy] (integer [order_id], no
    [ib_order_id], no translation-table entry, no [check_and_update]) and its
    own [DynamicLimitOrderStrategy]. *)
Module Legacy.

Record lstrategy := mkL {
  l_signal : signal;
  l_timeout_seconds : Q;
  l_start_time : Q;
  l_order_id : option Z;
  l_status : string;
  l_last_price_update : option Q;
  l_attempts : nat
}.

(** [DynamicLimitOrderStrategy(trading_app, signal, timeout)] at time [now]. *)
Definition init (sig : signal) (timeout_seconds now : Q) : lstrategy :=
  mkL sig timeout_seconds now None "PENDING" None 0.

Definition set_status (s : lstrategy) (status : string) : lstrategy :=
  mkL (l_signal s) (l_timeout_seconds s) (l_start_time s) (l_order_id s) status
    (l_last_price_update s) (l_attempts s).

Definition set_order_id (s : lstrategy) (n : Z) : lstrategy :=
  mkL (l_signal s) (l_timeout_seconds s) (l_start_time s) (Some n) (l_status s)
    (l_last_price_update s) (l_attempts s).

Definition set_last_price_update (s : lstrategy) (t : Q) : lstrategy :=
  mkL (l_signal s) (l_timeout_seconds s) (l_start_time s) (l_order_id s) (l_status s)
    (Some t) (l_attempts s).

(** [streaming_data.get(ticker, {}).get('bid' or 'ask', 0)]: a symbol with
    no entry reads 0; an entry not yet quoted reads [None]. *)
Definition quoted_price (m : market) (ticker action : string) : option Q :=
  match dget ticker (streaming_data m) with
  | None => Some 0
  | Some qt => if streq action "BUY" then q_bid qt else q_ask qt
  end.

(** [create_order]: a DAY limit order at the bid (BUY) or the ask (SELL). *)
Definition create_order (s : lstrategy) (m : market) (now : Q) : ib_order * lstrategy :=
  let sig := l_signal s in
  (mkIBOrder (sig_action sig) (sig_quantity sig) "LMT" "DAY"
     (quoted_price m (sig_ticker sig) (sig_action sig)),
   set_last_price_update s now).

(** [place_order]: takes the next broker id and hands the order to the
    gateway; [ib_to_uuid_map] is left as it is. *)
Definition place_order (s : lstrategy) (a : app) (o : ib_order) : lstrategy * app :=
  match next_order_id a with
  | Some n =>
      if Z.eqb n 0 then (s, a) else
      let a1 := mkApp (app_pm a) (Some (n + 1)%Z) (ib_to_uuid_map a)
                  (active_executions a) (gw_log a) in
      (set_status (set_order_id s n) "ACTIVE", placeOrder a1 n o)
  | None => (s, a)
  end.

Definition cancel_order (s : lstrategy) (a : app) : app :=
  match l_order_id s with
  | Some n => if negb (Z.eqb n 0) && streq (l_status s) "ACTIVE" then cancelOrder a n else a
  | None => a
  end.

Definition timeout_exceeded (s : lstrategy) (now timeout_seconds : Q) : bool :=
  Qltb timeout_seconds (now - l_start_time s).

(** [process_order_status] at time [now].  The re-pricing branch reads
    [trading_app.execution_module], an attribute [TradingApp] does not have:
    it raises before changing anything ([Raises]).  In the timeout branch
    the source's [place_order] takes [self.lock], which this method already
    holds, and blocks there; the model lets it return, which only adds
    states. *)
Definition process_order_status (s : lstrategy) (a : app) (status : string)
    (filled remaining avgFillPrice now : Q) : result (lstrategy * app) :=
  if streq status "Filled" then Returned (set_status s "COMPLETED", a)
  else if timeout_exceeded s now (l_timeout_seconds s) then
    let a1 := cancel_order s a in
    let market_order := mkIBOrder (sig_action (l_signal s)) remaining "MKT" "DAY" None in
    Returned (place_order s a1 market_order)
  else
    match l_last_price_update s with
    | Some t => if Qltb 10 (now - t) && Nat.ltb (l_attempts s) 3 then Raises else Returned (s, a)
    | None => Returned (s, a)
    end.

Definition is_complete (s : lstrategy) : bool := streq (l_status s) "COMPLETED".

(** The states a legacy strategy can be brought to by its own methods. *)
Inductive reachable : lstrategy -> Prop :=
| reach_init sig timeout_seconds now : reachable (init sig timeout_seconds now)
| reach_create s m now : reachable s -> reachable (snd (create_order s m now))
| reach_place s a o : reachable s -> reachable (fst (place_order s a o))
| reach_status s a status filled remaining avgFillPrice now s' a' :
    reachable s ->
    process_order_status s a status filled remaining avgFillPrice now = Returned (s', a') ->
    reachable s'.

End Legacy.

(** ** The strategy factory [execution_strategies.create_execution_strategy]

    The package imports [IOCMarketOrderStrategy] from market.py,
    [LimitOrderStrategy] from limit.py and [DynamicLimitOrderStrategy] from
    dynamic_limit.py. *)
Inductive live_strategy :=
| LiveX (s : xstrategy)
| LiveLegacy (s : Legacy.lstrategy).

Definition new_xstrategy (v : variant) (sig : signal) (now : Q) : xstrategy :=
  mkX v sig now None None "PENDING" None 0 0 false 0 false.

Definition create_execution_strategy (sig : signal) (now : Q) : result live_strategy :=
  let strategy_type := match sig_execution_strategy sig with Some t => t | None => "MARKET" end in
  if streq strategy_type "MARKET" then Returned (LiveX (new_xstrategy IOCMarket sig now))
  else if streq strategy_type "DYNAMIC_LIMIT" then
    let timeout := match sig_execution_timeout sig with Some t => t | None => 60 end in
    Returned (LiveLegacy (Legacy.init sig timeout now))
  else if streq strategy_type "LIMIT" then
    match sig_limit_price sig with
    | Some p => Returned (LiveX (new_xstrategy (PlainLimit p) sig now))
    | None => Raises
    end
  else Raises.

(** ** Further PositionManager operations *)

(** [get_or_create_position_id]: the matching position's id, or a new uuid
    when there is none (or its id is falsy). *)
Definition get_or_create_position_id (st : pm_state) (symbol instrument_type strategy_id : string)
    (strike : option Q) (expiry option_type : option string) : string * pm_state :=
  match find_matching_position_internal (positions st) symbol instrument_type strategy_id
          strike expiry option_type with
  | Some pid => if str_truthy pid then (pid, st) else generate_id st
  | None => generate_id st
  end.

(** The keys of a signal dict that only the ledger reads; [None] is a key
    the dict does not hold. *)
Record signal_ext := mkSigExt {
  sx_sig : signal;
  sx_strike : option Q;
  sx_expiry : option string;
  sx_option_type : option string;
  sx_pair_id : option string
}.

(** [create_order_info]; [Raises] is the [KeyError] of a missing
    [signal['strike']], [['expiry']], [['option_type']] or
    [['execution_strategy']].  The [timestamp] and [execution_type] keys
    are not read by the code modelled here and are left out. *)
Definition create_order_info (st : pm_state) (sx : signal_ext) : result (order * pm_state) :=
  let sig := sx_sig sx in
  let instrument_type := sig_type sig in
  let kwargs : result (option Q * option string * option string) :=
    if streq instrument_type "OPTION" then
      match sx_strike sx, sx_expiry sx, sx_option_type sx with
      | Some k, Some e, Some t => Returned (Some k, Some e, Some t)
      | _, _, _ => Raises
      end
    else if streq instrument_type "FUTURE" then
      match sx_expiry sx with
      | Some e => Returned (None, Some e, None)
      | None => Raises
      end
    else Returned (None, None, None) in
  match kwargs with
  | Raises => Raises
  | Returned (strike, expiry, option_type) =>
      let '(position_id, st1) :=
        get_or_create_position_id st (sig_ticker sig) instrument_type (sig_strategy_id sig)
          strike expiry option_type in
      match sig_execution_strategy sig with
      | None => Raises
      | Some _ =>
          let pair_id := match sx_pair_id sx with
                         | Some p => if str_truthy p then Some p else None
                         | None => None
                         end in
          Returned (mkOrder (sig_ticker sig) (sig_action sig) (sig_quantity sig) position_id
                      (sig_strategy_id sig) instrument_type strike expiry option_type pair_id 0 false,
                    st1)
      end
  end.

(** [get_all_positions(strategy_id)]: the positions of one strategy, or
    all of them for a falsy or absent id. *)
Definition get_all_positions (st : pm_state) (strategy_id : option string) : dict position :=
  match strategy_id with
  | Some sid =>
      if str_truthy sid then filter (fun kp => streq (pos_strategy_id (snd kp)) sid) (positions st)
      else positions st
  | None => positions st
  end.

(** The signed quantity a list of fills moves position [pid] by, reading
    each fill's order in the ledger [st]. *)
Definition position_delta (st : pm_state) (pid : string) (fs : list fill) : Q :=
  fold_right (fun f acc =>
    let '(oid, q, _) := f in
    match dget oid (orders st) with
    | Some o => if streq (ord_position_id o) pid then signed_fill (ord_action o) q else 0
    | None => 0
    end + acc) 0 fs.

(** ** Strategy lifetime *)

(** What reaches one strategy: a periodic check or a status callback. *)
Inductive xevent :=
| EvCheck (m : market) (symbol : string) (now : Q)
| EvStatus (status : string) (filled remaining avgFillPrice : Q).

Fixpoint run_strategy (s : xstrategy) (a : app) (evs : list xevent) : xstrategy * app :=
  match evs with
  | [] => (s, a)
  | EvCheck m symbol now :: r =>
      let '(s1, a1) := check_and_update s a m symbol now in run_strategy s1 a1 r
  | EvStatus status filled remaining avgFillPrice :: r =>
      run_strategy (process_order_status s status filled remaining avgFillPrice) a r
  end.

(** The gateway submissions a strategy can still make: up to
    [max_attempts] = 3 re-pricings and one conversion for a Dynamic-Limit
    order, none for the others. *)
Definition modification_budget (s : xstrategy) : nat :=
  match xs_variant s with
  | DynamicLimit _ => if xs_converted_to_market s then 0 else (3 - xs_attempts s) + 1
  | _ => 0
  end.

(** ** The running application with both kinds of strategy

    [process_signals] stores every placed strategy in [active_executions]
    under its [order_id]: a uuid string for the execution_base classes,
    the integer broker id (or None) for the dynamic_limit.py class.  The
    dict's keys are therefore Python values of three kinds; a lookup with a
    string never finds an integer or None key. *)
Inductive pykey :=
| KStr (s : string)
| KInt (z : Z)
| KNone.

Definition pykey_eqb (k k' : pykey) : bool :=
  match k, k' with
  | KStr a, KStr b => streq a b
  | KInt a, KInt b => Z.eqb a b
  | KNone, KNone => true
  | _, _ => false
  end.

Fixpoint pget {V} (k : pykey) (d : list (pykey * V)) : option V :=
  match d with
  | [] => None
  | (k', v) :: r => if pykey_eqb k k' then Some v else pget k r
  end.

(** [d[k] = v]: replaces the entry in place, or appends it. *)
Fixpoint pset {V} (k : pykey) (v : V) (d : list (pykey * V)) : list (pykey * V) :=
  match d with
  | [] => [(k, v)]
  | (k', v') :: r => if pykey_eqb k k' then (k', v) :: r else (k', v') :: pset k v r
  end.

(** [d.pop(k, None)]. *)
Definition ppop {V} (k : pykey) (d : list (pykey * V)) : list (pykey * V) :=
  filter (fun kv => negb (pykey_eqb (fst kv) k)) d.

(** The application with its [active_executions] as the code fills it;
    [la_executions] takes the place of the [active_executions] field of
    [la_app], which is not consulted here. *)
Record live_app := mkLive {
  la_app : app;
  la_executions : list (pykey * live_strategy)
}.

(** [execution_strategy.order_id], the key [process_signals] stores under. *)
Definition execution_key (ls : live_strategy) : pykey :=
  match ls with
  | LiveX s => match xs_order_id s with Some u => KStr u | None => KNone end
  | LiveLegacy l => match Legacy.l_order_id l with Some n => KInt n | None => KNone end
  end.

(** [process_signals], lines 426-430: the strategy places its order and is
    stored under its [order_id].  Line 433 then reads [ib_order_id], which
    the dynamic_limit.py class lacks: the [AttributeError] is caught after
    the strategy has been stored.  The ledger write of line 434 leaves
    [active_executions] alone (an [LOther] step below). *)
Definition live_submit (la : live_app) (ls : live_strategy) (o : ib_order) : live_app :=
  match ls with
  | LiveX s =>
      let '(s1, a1) := place_order s (la_app la) o in
      mkLive a1 (pset (execution_key (LiveX s1)) (LiveX s1) (la_executions la))
  | LiveLegacy l =>
      let '(l1, a1) := Legacy.place_order l (la_app la) o in
      mkLive a1 (pset (execution_key (LiveLegacy l1)) (LiveLegacy l1) (la_executions la))
  end.

(** [TradingApp.orderStatus] on the running application: the strategy
    stored under the uuid string, whichever class it is, sees the status;
    an exception (the [Raises] of the legacy re-pricing branch) is caught by
    the outer [try] and skips the ledger update. *)
Definition live_orderStatus (la : live_app) (orderId : Z) (status : string)
    (filled remaining avgFillPrice lastFillPrice now : Q) : live_app :=
  match zget orderId (ib_to_uuid_map (la_app la)) with
  | None => la
  | Some u =>
      if negb (str_truthy u) then la else
      match pget (KStr u) (la_executions la) with
      | Some (LiveX s) =>
          mkLive (ledger_fill (la_app la) u filled remaining lastFillPrice)
            (pset (KStr u) (LiveX (process_order_status s status filled remaining avgFillPrice))
               (la_executions la))
      | Some (LiveLegacy l) =>
          match Legacy.process_order_status l (la_app la) status filled remaining avgFillPrice now with
          | Returned (l1, a1) =>
              mkLive (ledger_fill a1 u filled remaining lastFillPrice)
                (pset (KStr u) (LiveLegacy l1) (la_executions la))
          | Raises => la
          end
      | None => mkLive (ledger_fill (la_app la) u filled remaining lastFillPrice) (la_executions la)
      end
  end.

(** One entry of a [monitor_executions] pass; [full_symbol] is the
    strategy's market-data key.  The dynamic_limit.py class has no
    [check_and_update]: the [AttributeError] is caught before [is_complete]
    is asked, and nothing changes. *)
Definition live_monitor_one (m : market) (full_symbol : xstrategy -> string) (now : Q)
    (la : live_app) (entry : pykey * live_strategy) : live_app :=
  let '(order_id, ls) := entry in
  match ls with
  | LiveX s =>
      let '(s1, a1) := check_and_update s (la_app la) m (full_symbol s) now in
      let ex := pset order_id (LiveX s1) (la_executions la) in
      if is_complete s1 then mkLive a1 (ppop order_id ex) else mkLive a1 ex
  | LiveLegacy _ => la
  end.

(** One pass of [monitor_executions] over a snapshot of [active_executions]. *)
Definition live_monitor_pass (m : market) (full_symbol : xstrategy -> string) (now : Q)
    (la : live_app) : live_app :=
  fold_left (live_monitor_one m full_symbol now) (la_executions la) la.

(** What can happen to the running application: a submission, a status
    callback, a monitor pass, or any other activity that leaves
    [active_executions] alone (ledger writes, exercises, market data). *)
Inductive live_event :=
| LSubmit (ls : live_strategy) (o : ib_order)
| LStatus (orderId : Z) (status : string) (filled remaining avgFillPrice lastFillPrice now : Q)
| LMonitor (m : market) (full_symbol : xstrategy -> string) (now : Q)
| LOther (f : app -> app).

Definition live_step (la : live_app) (e : live_event) : live_app :=
  match e with
  | LSubmit ls o => live_submit la ls o
  | LStatus orderId status filled remaining avgFillPrice lastFillPrice now =>
      live_orderStatus la orderId status filled remaining avgFillPrice lastFillPrice now
  | LMonitor m full_symbol now => live_monitor_pass m full_symbol now la
  | LOther f => mkLive (f (la_app la)) (la_executions la)
  end.

Fixpoint run_live (la : live_app) (evs : list live_event) : live_app :=
  match evs with
  | [] => la
  | e :: r => run_live (live_step la e) r
  end.

(** Cumulative [orderStatus] callbacks for one broker id:
    [(status, filled, remaining, avgFillPrice, lastFillPrice)]. *)
Fixpoint order_status_seq (a : app) (orderId : Z) (cbs : list (string * Q * Q * Q * Q)) : app :=
  match cbs with
  | [] => a
  | (status, f, r, p, l) :: rest => order_status_seq (orderStatus a orderId status f r p l) orderId rest
  end.

Definition max_filled (start : Q) (cbs : list (string * Q * Q * Q * Q)) : Q :=
  fold_left (fun acc cb => let '(_, f, _, _, _) := cb in Qmax acc f) cbs start.

(** ** Sample states *)

Definition sample_order : order :=
  mkOrder "AAPL" "BUY" 100 "p1" "s" "STOCK" None None None None 40 false.

Definition sample_app : app :=
  mkApp (mkPM [("u1", sample_order)]
           [("p1", mkPosition "AAPL" 40 10 "s" "STOCK" None None None None)] 0)
    (Some 8%Z) [(7%Z, "u1")] [] [].

Definition sample_call : position :=
  mkPosition "XYZ" 2 3 "s" "OPTION" (Some 100) (Some "2025-01-17") (Some "CALL") None.

Definition sample_settle_state : pm_state :=
  mkPM [] [("opt1", sample_call); ("stk1", mkPosition "XYZ" 50 90 "s" "STOCK" None None None None)] 0.

(** The Dynamic-Limit price rule as the specification states it: the
    tick-rounded mid, clamped inside the spread, else the last trade. *)
Definition spec_dl_limit_price (action : string) (qt : quote) (tick_size : Q) : option Q :=
  let last := positive_price (q_last qt) in
  match q_bid qt, q_ask qt with
  | Some bid, Some ask =>
      if Qltb 0 bid && Qltb 0 ask then
        let rounded := inject_Z (round_half_even (((bid + ask) / 2) / tick_size)) * tick_size in
        Some (if streq action "BUY" then (if Qle_bool ask rounded then bid else rounded)
              else (if Qle_bool rounded bid then ask else rounded))
      else last
  | _, _ => last
  end.

(** A Dynamic-Limit BUY of 100 XYZ, quoted 9.95 / 10.05 with a 0.05 tick. *)
Definition dl_signal : signal :=
  mkSignal "STOCK" "XYZ" "BUY" 100 "s" (Some "DYNAMIC_LIMIT") None None.

Definition dl_market : market :=
  mkMarket [("XYZ", mkQuote (Some (995 # 100)) (Some (1005 # 100)) (Some 10))]
    [("XYZ", 5 # 100)].

(** A freshly connected application: broker id 1 is next, nothing mapped. *)
Definition fresh_app : app := mkApp (mkPM [] [] 0) (Some 1%Z) [] [] [].

(** A Dynamic-Limit strategy live under broker id 7 with a 60 s timeout. *)
Definition dl_live : xstrategy :=
  mkX (DynamicLimit 60) dl_signal 0 (Some "uuid-1") (Some 7%Z) "ACTIVE"
    (Some (mkIBOrder "BUY" 100 "LMT" "DAY" (Some 10))) 0 0 false 0 false.

(** A position that is flat has a zero average price. *)
Definition flat_inv (p : position) : Prop :=
  pos_quantity p == 0 -> pos_avg_price p = 0.

(** The fill [f] is for an order of the ledger whose position is [pid]. *)
Definition fill_targets (st : pm_state) (pid : string) (f : fill) : Prop :=
  exists o, dget (fst (fst f)) (orders st) = Some o /\ ord_position_id o = pid.

(** The callback for [orderId] finds nothing new to apply. *)
Definition nothing_new (a : app) (orderId : Z) (filled : Q) : Prop :=
  forall u o, zget orderId (ib_to_uuid_map a) = Some u -> str_truthy u = true ->
  dget u (orders (app_pm a)) = Some o ->
  Qltb 0 filled = true -> Qltb 0 (filled - ord_last_processed_fill o) = false.

(** * Properties *)

(** Example from the source's arithmetic: long 100 @ 10, buy 100 @ 12. *)
Example new_avg_price_add :
  new_avg_price 100 10 100 12 200 == 11.
Proof. reflexivity. Qed.

(** ** Lemmas on dictionaries and comparisons *)

Lemma streq_true (a b : string) : streq a b = true <-> a = b.
Proof. unfold streq. apply String.eqb_eq. Qed.

Lemma streq_refl (a : string) : streq a a = true.
Proof. apply streq_true. reflexivity. Qed.

Lemma streq_false (a b : string) : a <> b -> streq a b = false.
Proof.
  intros Hne. destruct (streq a b) eqn:E; [|reflexivity].
  apply streq_true in E. contradiction.
Qed.

Lemma dget_dset_same {V} (k : string) (v : V) (d : dict V) :
  dget k (dset k v d) = Some v.
Proof.
  induction d as [|[k' v'] r IH]; simpl.
  - rewrite streq_refl. reflexivity.
  - destruct (streq k k') eqn:E; simpl.
    + rewrite E. reflexivity.
    + rewrite E. exact IH.
Qed.

Lemma dget_dset_other {V} (k k' : string) (v : V) (d : dict V) :
  k' <> k -> dget k' (dset k v d) = dget k' d.
Proof.
  intros Hne. induction d as [|[k0 v0] r IH]; simpl.
  - rewrite (streq_false _ _ Hne). reflexivity.
  - destruct (streq k k0) eqn:E; simpl.
    + apply streq_true in E. subst k0.
      rewrite (streq_false _ _ Hne). reflexivity.
    + destruct (streq k' k0); [reflexivity | exact IH].
Qed.

Lemma dset_fresh {V} (k : string) (v : V) (d : dict V) :
  dget k d = None -> dset k v d = d ++ [(k, v)].
Proof.
  induction d as [|[k0 v0] r IH]; simpl; intros H; [reflexivity|].
  destruct (streq k k0); [discriminate|]. rewrite IH by exact H. reflexivity.
Qed.

Lemma Qltb_0_l (x : Q) : Qltb 0 x = Z.ltb 0 (Qnum x).
Proof.
  destruct x as [n d]. unfold Qltb, Qle_bool; simpl.
  rewrite Z.mul_1_r. destruct (Z.leb_spec n 0), (Z.ltb_spec 0 n); try reflexivity; lia.
Qed.

Lemma Qltb_0_r (x : Q) : Qltb x 0 = Z.ltb (Qnum x) 0.
Proof.
  destruct x as [n d]. unfold Qltb, Qle_bool; simpl.
  rewrite Z.mul_1_r. destruct (Z.leb_spec 0 n), (Z.ltb_spec n 0); try reflexivity; lia.
Qed.

(** [current_qty * new_quantity > 0] is "same sign". *)
Lemma product_positive_same_sign (a b : Q) :
  Qltb 0 (a * b) = same_sign a b.
Proof.
  unfold same_sign. rewrite !Qltb_0_l, !Qltb_0_r.
  destruct a as [an ad], b as [bn bd]; simpl.
  destruct (Z.ltb_spec 0 (an * bn)), (Z.ltb_spec 0 an), (Z.ltb_spec 0 bn),
    (Z.ltb_spec an 0), (Z.ltb_spec bn 0); simpl; try reflexivity; nia.
Qed.

Lemma new_avg_price_spec (c a f p n : Q) :
  new_avg_price c a f p n = spec_avg_price c a f p n.
Proof.
  unfold new_avg_price, spec_avg_price. rewrite product_positive_same_sign.
  destruct (Qeq_bool n 0); reflexivity.
Qed.

Lemma process_fill_unknown (st : pm_state) (order_id : string) (q pr : Q) :
  dget order_id (orders st) = None -> process_fill st order_id q pr = st.
Proof. intros H. unfold process_fill. rewrite H. reflexivity. Qed.

Lemma orders_process_fill (st : pm_state) (order_id : string) (q pr : Q) :
  orders (process_fill st order_id q pr) = orders st.
Proof.
  unfold process_fill. destruct (dget order_id (orders st)); [|reflexivity].
  destruct (current_qty_avg _ _). reflexivity.
Qed.

Lemma uuid_next_process_fill (st : pm_state) (order_id : string) (q pr : Q) :
  uuid_next (process_fill st order_id q pr) = uuid_next st.
Proof.
  unfold process_fill. destruct (dget order_id (orders st)); [|reflexivity].
  destruct (current_qty_avg _ _). reflexivity.
Qed.

(** The stored position after a fill of a known order. *)
Lemma process_fill_stored (st : pm_state) (order_id : string) (o : order) (q pr : Q) :
  dget order_id (orders st) = Some o ->
  let pid := ord_position_id o in
  let cur := fst (current_qty_avg st pid) in
  let avg := snd (current_qty_avg st pid) in
  let delta := signed_fill (ord_action o) q in
  dget pid (positions (process_fill st order_id q pr)) =
  Some (mkPosition (ord_symbol o) (cur + delta)
          (new_avg_price cur avg delta pr (cur + delta))
          (ord_strategy_id o) (ord_instrument_type o)
          (if streq (ord_instrument_type o) "OPTION" then ord_strike o else None)
          (if streq (ord_instrument_type o) "OPTION" || streq (ord_instrument_type o) "FUTURE"
           then ord_expiry o else None)
          (if streq (ord_instrument_type o) "OPTION" then ord_option_type o else None)
          (match ord_pair_id o with
           | Some s => if str_truthy s then Some s else None
           | None => None
           end)).
Proof.
  intros H. unfold process_fill. rewrite H.
  destruct (current_qty_avg st (ord_position_id o)) as [c a]; simpl.
  unfold update_position_internal, set_positions; simpl.
  rewrite dget_dset_same. reflexivity.
Qed.

(** Positions other than the order's are untouched by a fill. *)
Lemma process_fill_other (st : pm_state) (order_id : string) (o : order) (q pr : Q) (pid : string) :
  dget order_id (orders st) = Some o -> pid <> ord_position_id o ->
  dget pid (positions (process_fill st order_id q pr)) = dget pid (positions st).
Proof.
  intros H Hne. unfold process_fill. rewrite H.
  destruct (current_qty_avg st (ord_position_id o)) as [c a]; simpl.
  unfold update_position_internal, set_positions; simpl.
  apply dget_dset_other. exact Hne.
Qed.

Lemma process_fill_flat_inv (st : pm_state) (pid : string) (f : fill) :
  fill_targets st pid f ->
  exists p, dget pid (positions (process_fill st (fst (fst f)) (snd (fst f)) (snd f))) = Some p
            /\ flat_inv p.
Proof.
  intros [o [Ho Hpid]]. subst pid.
  eexists. split; [apply (process_fill_stored _ _ _ _ _ Ho)|].
  unfold flat_inv; simpl. intros Hz.
  unfold new_avg_price. apply Qeq_bool_iff in Hz. rewrite Hz. reflexivity.
Qed.

Lemma apply_fills_orders (st : pm_state) (fs : list fill) :
  orders (apply_fills st fs) = orders st.
Proof.
  revert st. induction fs as [|[[oid q] pr] r IH]; intros st; simpl; [reflexivity|].
  rewrite IH. apply orders_process_fill.
Qed.

(** ** Fill reconciliation *)

(** Claim C1: a fill of a known order stores the position with
    [quantity = current_quantity + delta] ([delta] = +q for BUY, -q for SELL)
    and [avg_price] by the priority rule: 0 when flat; the quantity-weighted
    average when the same sign and larger magnitude; unchanged when the same
    sign and not larger; the fill price on a sign change. *)
Theorem process_fill_price_rule (st : pm_state) (order_id : string) (o : order) (q pr : Q) :
  dget order_id (orders st) = Some o ->
  let pid := ord_position_id o in
  let current_quantity := fst (current_qty_avg st pid) in
  let current_avg := snd (current_qty_avg st pid) in
  let delta := if streq (ord_action o) "BUY" then q else - q in
  let new_quantity := current_quantity + delta in
  exists p, dget pid (positions (process_fill st order_id q pr)) = Some p
    /\ pos_quantity p = new_quantity
    /\ pos_avg_price p =
       (if Qeq_bool new_quantity 0 then 0
        else if same_sign current_quantity new_quantity then
          if Qltb (Qabs current_quantity) (Qabs new_quantity) then
            (Qabs current_quantity * current_avg + Qabs delta * pr) / Qabs new_quantity
          else current_avg
        else pr).
Proof.
  intros H. eexists. split; [apply (process_fill_stored _ _ _ _ _ H)|].
  simpl. split; [reflexivity|].
  rewrite new_avg_price_spec. reflexivity.
Qed.

Lemma process_fill_price_rule_witness :
  let o := mkOrder "AAPL" "BUY" 100 "p1" "s" "STOCK" None None None None 0 false in
  let st := mkPM [("o1", o)]
              [("p1", mkPosition "AAPL" 100 10 "s" "STOCK" None None None None)] 0 in
  dget "o1"%string (orders st) = Some o /\
  exists p, dget "p1"%string (positions (process_fill st "o1" 100 12)) = Some p
    /\ pos_quantity p = 100 + 100 /\ pos_avg_price p = (100 * 10 + 100 * 12) / 200.
Proof.
  intros o st. split; [reflexivity|].
  destruct (process_fill_price_rule st "o1" o 100 12 eq_refl) as [p [Hp [Hq Ha]]].
  exists p. split; [exact Hp|]. split; [exact Hq|]. rewrite Ha. reflexivity.
Defined.

(** Claim C2: along any sequence of fills applied to one position, after
    every fill the position satisfies [quantity == 0 => avg_price == 0]. *)
Theorem fills_preserve_flat_zero_avg (st : pm_state) (pid : string) (fs : list fill) :
  Forall (fill_targets st pid) fs ->
  forall n, (0 < n)%nat -> (n <= length fs)%nat ->
  exists p, dget pid (positions (apply_fills st (firstn n fs))) = Some p /\ flat_inv p.
Proof.
  revert st. induction fs as [|f r IH]; intros st Hall n Hn Hle; simpl in Hle; [lia|].
  inversion Hall as [|? ? Hf Hr]; subst.
  destruct n as [|m]; [lia|].
  destruct f as [[oid q] pr]. simpl.
  destruct m as [|m].
  - simpl. apply (process_fill_flat_inv st pid (oid, q, pr) Hf).
  - apply IH; [|lia|lia].
    eapply Forall_impl; [|exact Hr].
    intros f' [o' [Ho' Hp']]. exists o'. rewrite orders_process_fill. auto.
Qed.

Lemma fills_preserve_flat_zero_avg_witness :
  let o1 := mkOrder "AAPL" "BUY" 100 "p1" "s" "STOCK" None None None None 0 false in
  let o2 := mkOrder "AAPL" "SELL" 100 "p1" "s" "STOCK" None None None None 0 false in
  let st := mkPM [("o1", o1); ("o2", o2)] [] 0 in
  let fs : list fill := [("o1"%string, 100, 10); ("o2"%string, 100, 12)] in
  Forall (fill_targets st "p1") fs /\ (0 < 2)%nat /\ (2 <= length fs)%nat /\
  exists p, dget "p1"%string (positions (apply_fills st (firstn 2 fs))) = Some p /\ flat_inv p.
Proof.
  intros o1 o2 st fs.
  assert (Hall : Forall (fill_targets st "p1") fs).
  { repeat constructor; eexists; split; reflexivity. }
  split; [exact Hall|]. split; [lia|]. split; [simpl; lia|].
  apply (fills_preserve_flat_zero_avg st "p1" fs Hall 2); simpl; lia.
Defined.

(** ** Order-status callbacks *)

Lemma app_pm_dispatch_status (a : app) (u status : string) (f r p : Q) :
  app_pm (dispatch_status a u status f r p) = app_pm a.
Proof. unfold dispatch_status. destruct (dget u (active_executions a)); reflexivity. Qed.

Lemma map_dispatch_status (a : app) (u status : string) (f r p : Q) :
  ib_to_uuid_map (dispatch_status a u status f r p) = ib_to_uuid_map a.
Proof. unfold dispatch_status. destruct (dget u (active_executions a)); reflexivity. Qed.

Lemma map_ledger_fill (a : app) (u : string) (f r p : Q) :
  ib_to_uuid_map (ledger_fill a u f r p) = ib_to_uuid_map a.
Proof.
  unfold ledger_fill. destruct (dget u (orders (app_pm a))); [|reflexivity].
  destruct (Qltb 0 f); [|reflexivity].
  destruct (Qltb 0 _); reflexivity.
Qed.

Lemma map_orderStatus (a : app) (orderId : Z) (status : string) (f r p l : Q) :
  ib_to_uuid_map (orderStatus a orderId status f r p l) = ib_to_uuid_map a.
Proof.
  unfold orderStatus. destruct (zget orderId (ib_to_uuid_map a)) as [u|]; [|reflexivity].
  destruct (negb (str_truthy u)); [reflexivity|].
  rewrite map_ledger_fill. apply map_dispatch_status.
Qed.

Lemma orderStatus_nothing_new (a : app) (orderId : Z) (status : string) (f r p l : Q) :
  nothing_new a orderId f -> app_pm (orderStatus a orderId status f r p l) = app_pm a.
Proof.
  intros Hn. unfold orderStatus.
  destruct (zget orderId (ib_to_uuid_map a)) as [u|] eqn:Hz; [|reflexivity].
  destruct (str_truthy u) eqn:Ht; simpl; [|reflexivity].
  unfold ledger_fill. rewrite !app_pm_dispatch_status.
  destruct (dget u (orders (app_pm a))) as [o|] eqn:Ho;
    [|apply app_pm_dispatch_status].
  destruct (Qltb 0 f) eqn:Hf; [|apply app_pm_dispatch_status].
  rewrite (Hn u o Hz Ht Ho Hf). apply app_pm_dispatch_status.
Qed.

Lemma Qltb_0_self_minus (x : Q) : Qltb 0 (x - x) = false.
Proof.
  rewrite Qltb_0_l. destruct x as [n d]. simpl.
  replace (n * Z.pos d + - n * Z.pos d)%Z with 0%Z by ring. reflexivity.
Qed.

Lemma orderStatus_then_nothing_new (a : app) (orderId : Z) (status : string) (f r p l : Q) :
  nothing_new (orderStatus a orderId status f r p l) orderId f.
Proof.
  intros u o Hz Ht Ho Hf. rewrite map_orderStatus in Hz.
  revert Ho. unfold orderStatus. rewrite Hz, Ht. simpl.
  unfold ledger_fill. rewrite !app_pm_dispatch_status.
  destruct (dget u (orders (app_pm a))) as [o0|] eqn:E0.
  - rewrite Hf.
    destruct (Qltb 0 (f - ord_last_processed_fill o0)) eqn:En.
    + unfold app_set_pm; simpl. unfold update_order_progress.
      rewrite orders_process_fill, E0. simpl.
      rewrite dget_dset_same. intros Ho. injection Ho as <-. simpl.
      apply Qltb_0_self_minus.
    + rewrite app_pm_dispatch_status, E0. intros Ho. injection Ho as <-. exact En.
  - rewrite app_pm_dispatch_status, E0. discriminate.
Qed.

Lemma Qltb_0_minus_le (f l : Q) : f <= l -> Qltb 0 (f - l) = false.
Proof.
  intros H. unfold Qltb. apply negb_false_iff. apply Qle_bool_iff. lra.
Qed.

(** Claim C3: a callback whose cumulative [filled] is at most the order's
    [last_processed_fill] leaves the position and order ledgers unchanged;
    and delivering the same callback twice changes nothing the second time. *)
Theorem orderStatus_duplicate_zero_delta :
  (forall (a : app) (orderId : Z) (status : string) (filled remaining avgFillPrice lastFillPrice : Q),
     (forall u o, zget orderId (ib_to_uuid_map a) = Some u ->
        dget u (orders (app_pm a)) = Some o -> filled <= ord_last_processed_fill o) ->
     app_pm (orderStatus a orderId status filled remaining avgFillPrice lastFillPrice) = app_pm a)
  /\
  (forall (a : app) (orderId : Z) (status : string) (filled remaining avgFillPrice lastFillPrice : Q),
     let a' := orderStatus a orderId status filled remaining avgFillPrice lastFillPrice in
     app_pm (orderStatus a' orderId status filled remaining avgFillPrice lastFillPrice) = app_pm a').
Proof.
  split.
  - intros a orderId status f r p l Hle. apply orderStatus_nothing_new.
    intros u o Hz _ Ho _. apply Qltb_0_minus_le. exact (Hle u o Hz Ho).
  - intros a orderId status f r p l a'. apply orderStatus_nothing_new.
    apply orderStatus_then_nothing_new.
Qed.

Lemma orderStatus_duplicate_zero_delta_witness :
  (forall u o, zget 7%Z (ib_to_uuid_map sample_app) = Some u ->
     dget u (orders (app_pm sample_app)) = Some o -> 40 <= ord_last_processed_fill o) /\
  app_pm (orderStatus sample_app 7 "Submitted" 40 60 10 10) = app_pm sample_app.
Proof.
  assert (H : forall u o, zget 7%Z (ib_to_uuid_map sample_app) = Some u ->
     dget u (orders (app_pm sample_app)) = Some o -> 40 <= ord_last_processed_fill o).
  { intros u o Hz Ho. simpl in Hz. injection Hz as <-. simpl in Ho.
    injection Ho as <-. simpl. lra. }
  split; [exact H|].
  exact (proj1 orderStatus_duplicate_zero_delta sample_app 7%Z "Submitted" 40 60 10 10 H).
Defined.

(** Claim C7: a fill for an order missing from the ledger, and a status
    callback for a broker id with no mapping, are dropped: nothing changes. *)
Theorem unknown_order_dropped :
  (forall (st : pm_state) (order_id : string) (q pr : Q),
     dget order_id (orders st) = None -> process_fill st order_id q pr = st)
  /\
  (forall (a : app) (orderId : Z) (status : string) (filled remaining avgFillPrice lastFillPrice : Q),
     zget orderId (ib_to_uuid_map a) = None ->
     orderStatus a orderId status filled remaining avgFillPrice lastFillPrice = a).
Proof.
  split.
  - apply process_fill_unknown.
  - intros a orderId status f r p l Hz. unfold orderStatus. rewrite Hz. reflexivity.
Qed.

Lemma unknown_order_dropped_witness :
  dget "u9" (orders (app_pm sample_app)) = None /\
  process_fill (app_pm sample_app) "u9" 10 10 = app_pm sample_app /\
  zget 9%Z (ib_to_uuid_map sample_app) = None /\
  orderStatus sample_app 9 "Filled" 100 0 10 10 = sample_app.
Proof.
  split; [reflexivity|]. split.
  - apply (proj1 unknown_order_dropped); reflexivity.
  - split; [reflexivity|]. apply (proj2 unknown_order_dropped); reflexivity.
Defined.

(** ** Option settlement *)

Lemma Qltb_true (x y : Q) : Qltb x y = true <-> x < y.
Proof.
  unfold Qltb. rewrite negb_true_iff. split.
  - intros H. apply Qnot_le_lt. intros Hle. apply Qle_bool_iff in Hle. congruence.
  - intros H. destruct (Qle_bool y x) eqn:E; [|reflexivity].
    apply Qle_bool_iff in E. exfalso. exact (Qlt_not_le _ _ H E).
Qed.

Lemma Qltb_false (x y : Q) : Qltb x y = false <-> y <= x.
Proof.
  unfold Qltb. rewrite negb_false_iff. apply Qle_bool_iff.
Qed.

Lemma gen_uuid_inj (n m : nat) : gen_uuid n = gen_uuid m -> n = m.
Proof.
  unfold gen_uuid. simpl. intros H. repeat (injection H as H).
  rewrite <- (HexString.to_nat_of_nat n), <- (HexString.to_nat_of_nat m), H.
  reflexivity.
Qed.

(** The closing order flattens the option position it is sized from. *)
Lemma close_order_flattens (q : Q) :
  q + signed_fill (if Qltb q 0 then "BUY" else "SELL") (Qabs q) == 0.
Proof.
  destruct (Qltb q 0) eqn:E; unfold signed_fill; simpl.
  - apply Qltb_true in E. rewrite Qabs_neg by (apply Qlt_le_weak; exact E). ring.
  - apply Qltb_false in E. rewrite Qabs_pos by exact E. ring.
Qed.

(** A STOCK query does not see an update of a non-stock entry. *)
Lemma find_stock_dset_nonstock (d : dict position) (k : string) (v : position) (sym sid : string) :
  pos_instrument_type v <> "STOCK" ->
  (forall old, dget k d = Some old -> pos_instrument_type old <> "STOCK") ->
  find_matching_position_internal (dset k v d) sym "STOCK" sid None None None =
  find_matching_position_internal d sym "STOCK" sid None None None.
Proof.
  intros Hv. induction d as [|[k0 v0] r IH]; intros Hold; simpl.
  - rewrite (streq_false _ _ Hv), !andb_false_r. reflexivity.
  - destruct (streq k k0) eqn:E; simpl.
    + assert (H0 : pos_instrument_type v0 <> "STOCK") by (apply Hold; simpl; rewrite E; reflexivity).
      rewrite (streq_false _ _ Hv), (streq_false _ _ H0), !andb_false_r. reflexivity.
    + rewrite IH; [reflexivity|]. intros old Ho. apply Hold. simpl. rewrite E. exact Ho.
Qed.

Lemma find_stock_in (d : dict position) (sym sid pid : string) :
  find_matching_position_internal d sym "STOCK" sid None None None = Some pid ->
  exists p, In (pid, p) d /\ pos_instrument_type p = "STOCK".
Proof.
  induction d as [|[k0 v0] r IH]; simpl; [discriminate|].
  destruct (streq (pos_symbol v0) sym && streq (pos_strategy_id v0) sid
            && streq (pos_instrument_type v0) "STOCK") eqn:E.
  - simpl. intros H. injection H as <-. exists v0. split; [left; reflexivity|].
    apply andb_true_iff in E. apply streq_true. tauto.
  - intros H. destruct (IH H) as [p [Hin Hp]]. exists p. split; [right; exact Hin|exact Hp].
Qed.

Lemma NoDup_In_dget {V} (d : dict V) (k : string) (v : V) :
  NoDup (map fst d) -> In (k, v) d -> dget k d = Some v.
Proof.
  induction d as [|[k0 v0] r IH]; simpl; [contradiction|].
  intros Hnd Hin. inversion Hnd as [|? ? Hnotin Hnd']; subst.
  destruct Hin as [Heq|Hin].
  - injection Heq as <- <-. rewrite streq_refl. reflexivity.
  - assert (Hne : k <> k0).
    { intros ->. apply Hnotin. apply (in_map fst) in Hin. exact Hin. }
    rewrite (streq_false _ _ Hne). apply IH; assumption.
Qed.

Lemma current_qty_avg_positions (st st' : pm_state) (pid : string) :
  dget pid (positions st') = dget pid (positions st) ->
  current_qty_avg st' pid = current_qty_avg st pid.
Proof. unfold current_qty_avg. intros ->. reflexivity. Qed.

Lemma close_fill_stored (st : pm_state) (symbol : string) (position p0 : position)
    (pos_id : string) (k : Q) (ot oid : string) :
  dget pos_id (positions st) = Some p0 -> pos_quantity p0 = pos_quantity position ->
  let st2 := add_order st oid (close_option_order symbol position pos_id k ot) in
  exists p', dget pos_id (positions (process_fill st2 oid (Qabs (pos_quantity position)) 0)) = Some p'
    /\ pos_quantity p' == 0 /\ pos_avg_price p' = 0 /\ pos_instrument_type p' = "OPTION".
Proof.
  intros Hp0 Hq st2.
  assert (Ho1 : dget oid (orders st2) = Some (close_option_order symbol position pos_id k ot))
    by apply dget_dset_same.
  pose proof (process_fill_stored st2 oid _ (Qabs (pos_quantity position)) 0 Ho1) as Hs.
  simpl in Hs. unfold current_qty_avg in Hs. simpl in Hs. rewrite Hp0, Hq in Hs. simpl in Hs.
  eexists. split; [exact Hs|]. simpl.
  pose proof (close_order_flattens (pos_quantity position)) as Hz.
  split; [exact Hz|]. split; [|reflexivity].
  unfold new_avg_price. apply Qeq_bool_iff in Hz. rewrite Hz. reflexivity.
Qed.

Lemma exercise_otm_shape (st : pm_state) (symbol : string) (position p0 : position)
    (close : Q) (pos_id : string) (k : Q) (ot : string) :
  pos_strike position = Some k -> pos_option_type position = Some ot ->
  option_is_itm ot k close = false ->
  dget pos_id (positions st) = Some p0 -> pos_quantity p0 = pos_quantity position ->
  ids_fresh st ->
  exists st', process_exercise st symbol position close pos_id = Some st' /\
    orders st' = orders st ++ [(gen_uuid (uuid_next st), close_option_order symbol position pos_id k ot)] /\
    (exists p', dget pos_id (positions st') = Some p' /\ pos_quantity p' == 0 /\ pos_avg_price p' = 0) /\
    (forall pid, pid <> pos_id -> dget pid (positions st') = dget pid (positions st)).
Proof.
  intros Hk Ht Hitm Hp0 Hq Hfr.
  unfold option_is_itm in Hitm.
  unfold process_exercise. rewrite Hk, Ht, Hitm.
  cbv beta iota zeta delta [generate_id].
  set (st1 := mkPM (orders st) (positions st) (S (uuid_next st))).
  set (o1 := close_option_order symbol position pos_id k ot).
  eexists. split; [reflexivity|].
  destruct (Hfr (uuid_next st) (le_n _)) as [Hfo _].
  assert (Ho1 : dget (gen_uuid (uuid_next st)) (orders (add_order st1 (gen_uuid (uuid_next st)) o1))
                = Some o1) by apply dget_dset_same.
  split; [|split].
  - rewrite orders_process_fill. simpl. apply dset_fresh. exact Hfo.
  - destruct (close_fill_stored st1 symbol position p0 pos_id k ot (gen_uuid (uuid_next st)) Hp0 Hq)
      as [p' [Hs [Hz [Ha _]]]].
    exists p'. auto.
  - intros pid Hne. rewrite (process_fill_other _ _ _ _ _ _ Ho1 Hne). reflexivity.
Qed.

Lemma positions_process_fill_known (st : pm_state) (oid : string) (o : order) (q pr : Q) :
  dget oid (orders st) = Some o ->
  exists p, positions (process_fill st oid q pr) = dset (ord_position_id o) p (positions st)
            /\ pos_instrument_type p = ord_instrument_type o.
Proof.
  intros H. unfold process_fill. rewrite H.
  destruct (current_qty_avg st (ord_position_id o)) as [c a].
  eexists. split; reflexivity.
Qed.

Lemma dget_single_other {V} (k k' : string) (v : V) :
  k <> k' -> dget k [(k', v)] = None.
Proof. intros Hne. simpl. rewrite (streq_false _ _ Hne). reflexivity. Qed.

Lemma dget_app {V} (k : string) (d1 d2 : dict V) :
  dget k (d1 ++ d2) = match dget k d1 with Some v => Some v | None => dget k d2 end.
Proof.
  induction d1 as [|[k0 v0] r IH]; simpl; [reflexivity|].
  destruct (streq k k0); [reflexivity|exact IH].
Qed.

Lemma exercise_itm_shape (st : pm_state) (symbol : string) (position p0 : position)
    (close : Q) (pos_id : string) (k : Q) (ot : string) :
  pos_strike position = Some k -> pos_option_type position = Some ot ->
  option_is_itm ot k close = true ->
  dget pos_id (positions st) = Some p0 -> pos_instrument_type p0 = "OPTION" ->
  pos_quantity p0 = pos_quantity position ->
  NoDup (map fst (positions st)) -> ids_fresh st ->
  let q := pos_quantity position in
  let is_call := streq (upper ot) "CALL" in
  let found := find_matching_position_internal (positions st) symbol "STOCK"
                 (pos_strategy_id position) None None None in
  exists st' stock_pid oid2,
    process_exercise st symbol position close pos_id = Some st' /\
    ((found = Some stock_pid /\ str_truthy stock_pid = true)
     \/ (dget stock_pid (positions st) = None
         /\ forall pid, found = Some pid -> str_truthy pid = false)) /\
    orders st' = orders st ++
      [(gen_uuid (uuid_next st), close_option_order symbol position pos_id k ot);
       (oid2, exercise_stock_order symbol position stock_pid is_call)] /\
    (exists p', dget pos_id (positions st') = Some p' /\ pos_quantity p' == 0
                /\ pos_avg_price p' = 0) /\
    (let cur := fst (current_qty_avg st stock_pid) in
     let avg := snd (current_qty_avg st stock_pid) in
     let delta := signed_fill (exercise_stock_action is_call q) (Qabs q * 100) in
     exists ps, dget stock_pid (positions st') = Some ps /\ pos_quantity ps = cur + delta
                /\ pos_avg_price ps = new_avg_price cur avg delta k (cur + delta)
                /\ pos_instrument_type ps = "STOCK").
Proof.
  intros Hk Ht Hitm Hp0 Hi0 Hq Hnd Hfr q is_call found.
  unfold option_is_itm in Hitm. unfold process_exercise. rewrite Hk, Ht, Hitm.
  cbv beta iota zeta delta [generate_id].
  set (n := uuid_next st).
  set (st1 := mkPM (orders st) (positions st) (S n)).
  set (o1 := close_option_order symbol position pos_id k ot).
  set (oid1 := gen_uuid n).
  set (st3 := process_fill (add_order st1 oid1 o1) oid1 (Qabs (pos_quantity position)) 0).
  assert (Ho1 : dget oid1 (orders (add_order st1 oid1 o1)) = Some o1) by apply dget_dset_same.
  destruct (Hfr n (le_n _)) as [Hfo1 _].
  assert (Hord3 : orders st3 = orders st ++ [(oid1, o1)]).
  { unfold st3. rewrite orders_process_fill. simpl. apply dset_fresh. exact Hfo1. }
  assert (Hn3 : uuid_next st3 = S n).
  { unfold st3. rewrite uuid_next_process_fill. reflexivity. }
  assert (Hother3 : forall pid, pid <> pos_id -> dget pid (positions st3) = dget pid (positions st)).
  { intros pid Hne. unfold st3. rewrite (process_fill_other _ _ _ _ _ _ Ho1 Hne). reflexivity. }
  assert (Hfind : find_matching_position_internal (positions st3) symbol "STOCK"
                    (pos_strategy_id position) None None None = found).
  { unfold st3. destruct (positions_process_fill_known _ _ _ (Qabs (pos_quantity position)) 0 Ho1)
      as [P [HP HPi]].
    rewrite HP. apply find_stock_dset_nonstock.
    - rewrite HPi. discriminate.
    - intros old Hold. simpl in Hold. rewrite Hp0 in Hold. injection Hold as <-.
      rewrite Hi0. discriminate. }
  destruct (close_fill_stored st1 symbol position p0 pos_id k ot oid1 Hp0 Hq)
    as [p' [Hs [Hz [Ha _]]]].
  fold st3 in Hs.
  destruct (stock_position_id_for st3 symbol (pos_strategy_id position)) as [spid st4] eqn:Hsp.
  assert (Hspec : orders st4 = orders st3 /\ positions st4 = positions st3
                  /\ (S n <= uuid_next st4)%nat /\ spid <> pos_id
                  /\ dget spid (positions st3) = dget spid (positions st)
                  /\ ((found = Some spid /\ str_truthy spid = true)
                      \/ (dget spid (positions st) = None
                          /\ forall pid, found = Some pid -> str_truthy pid = false))).
  { unfold stock_position_id_for in Hsp. rewrite Hfind in Hsp.
    assert (Hgen : (found = None \/ exists pid, found = Some pid /\ str_truthy pid = false) ->
              generate_id st3 = (spid, st4) ->
              orders st4 = orders st3 /\ positions st4 = positions st3
              /\ (S n <= uuid_next st4)%nat /\ spid <> pos_id
              /\ dget spid (positions st3) = dget spid (positions st)
              /\ ((found = Some spid /\ str_truthy spid = true)
                  \/ (dget spid (positions st) = None
                      /\ forall pid, found = Some pid -> str_truthy pid = false))).
    { intros Hnf Hg. unfold generate_id in Hg. injection Hg as <- <-. simpl.
      rewrite Hn3. destruct (Hfr (S n) (le_S _ _ (le_n _))) as [_ Hfp].
      assert (Hne : gen_uuid (S n) <> pos_id).
      { intros Heq. rewrite Heq, Hp0 in Hfp. discriminate. }
      split; [reflexivity|]. split; [reflexivity|]. split; [lia|]. split; [exact Hne|].
      split; [apply Hother3; exact Hne|]. right. split; [exact Hfp|].
      intros pid Hpid. destruct Hnf as [Hnone|[pid' [Hpid' Hf']]]; congruence. }
    destruct found as [pid|] eqn:Ef.
    - destruct (str_truthy pid) eqn:Etr.
      + injection Hsp as <- <-.
        destruct (find_stock_in _ _ _ _ Ef) as [p [Hin Hpi]].
        assert (Hne : pid <> pos_id).
        { intros ->. pose proof (NoDup_In_dget _ _ _ Hnd Hin) as Hd. rewrite Hp0 in Hd.
          injection Hd as ->. rewrite Hi0 in Hpi. discriminate. }
        split; [reflexivity|]. split; [reflexivity|]. split; [lia|]. split; [exact Hne|].
        split; [apply Hother3; exact Hne|]. left. split; [reflexivity|exact Etr].
      + apply Hgen; [right; exists pid; split; [reflexivity|exact Etr]|exact Hsp].
    - apply Hgen; [left; reflexivity|exact Hsp]. }
  destruct Hspec as [Ho4 [Hp4 [Hn4 [Hsne [Hsd Hdisj]]]]].
  cbv beta iota zeta delta [generate_id].
  set (oid2 := gen_uuid (uuid_next st4)).
  set (o2 := exercise_stock_order symbol position spid is_call).
  set (st6 := add_order (mkPM (orders st4) (positions st4) (S (uuid_next st4))) oid2 o2).
  assert (Ho2 : dget oid2 (orders st6) = Some o2) by apply dget_dset_same.
  exists (process_fill st6 oid2 (Qabs (pos_quantity position) * 100) k), spid, oid2.
  split; [reflexivity|]. split; [exact Hdisj|]. split; [|split].
  - rewrite orders_process_fill. unfold st6, add_order, set_orders. simpl.
    rewrite Ho4, Hord3, dset_fresh, <- app_assoc; [reflexivity|].
    rewrite dget_app. destruct (Hfr (uuid_next st4) ltac:(lia)) as [Hfo2 _].
    unfold oid2. rewrite Hfo2. cbv beta iota.
    assert (Hne : gen_uuid (uuid_next st4) <> oid1).
    { intros Heq. apply gen_uuid_inj in Heq. lia. }
    apply dget_single_other. exact Hne.
  - exists p'. split; [|split; assumption].
    rewrite (process_fill_other _ _ _ _ _ _ Ho2); [|simpl; intros Heq; apply Hsne; symmetry; exact Heq].
    unfold st6, add_order, set_orders. simpl. rewrite Hp4. exact Hs.
  - pose proof (process_fill_stored st6 oid2 o2 (Qabs (pos_quantity position) * 100) k Ho2) as Hst.
    simpl in Hst.
    assert (Hc : current_qty_avg st6 spid = current_qty_avg st spid).
    { apply current_qty_avg_positions. unfold st6, add_order, set_orders. simpl.
      rewrite Hp4. exact Hsd. }
    rewrite Hc in Hst.
    eexists. split; [exact Hst|]. simpl. split; [reflexivity|]. split; reflexivity.
Qed.

(** Claim C6: settlement of an expired option position.  A CALL is in the
    money iff close > strike, a PUT (any other right) iff close < strike.  In
    the money: the option position is flattened by a synthetic order through
    [process_fill] at price 0, then a synthetic STOCK order of
    |quantity| * 100 shares is filled at the strike against the stock
    position found by identity match, or under a new id.  Out of the money:
    only the flattening order is recorded and no other position changes. *)
Theorem process_exercise_settlement (st : pm_state) (symbol : string) (position p0 : position)
    (close : Q) (pos_id : string) (k : Q) (ot : string) :
  pos_strike position = Some k -> pos_option_type position = Some ot ->
  dget pos_id (positions st) = Some p0 -> pos_instrument_type p0 = "OPTION" ->
  pos_quantity p0 = pos_quantity position ->
  NoDup (map fst (positions st)) -> ids_fresh st ->
  let q := pos_quantity position in
  let close_order := close_option_order symbol position pos_id k ot in
  let found := find_matching_position_internal (positions st) symbol "STOCK"
                 (pos_strategy_id position) None None None in
  (option_is_itm ot k close = true <->
     (upper ot = "CALL" /\ k < close) \/ (upper ot <> "CALL" /\ close < k)) /\
  (option_is_itm ot k close = true ->
   exists st' stock_pid oid2 o2,
     process_exercise st symbol position close pos_id = Some st' /\
     orders st' = orders st ++ [(gen_uuid (uuid_next st), close_order); (oid2, o2)] /\
     ord_instrument_type o2 = "STOCK" /\ ord_symbol o2 = symbol /\
     ord_strategy_id o2 = pos_strategy_id position /\
     ord_quantity o2 = Qabs q * 100 /\ ord_position_id o2 = stock_pid /\
     ((found = Some stock_pid /\ str_truthy stock_pid = true)
      \/ (dget stock_pid (positions st) = None
          /\ forall pid, found = Some pid -> str_truthy pid = false)) /\
     (exists p', dget pos_id (positions st') = Some p' /\ pos_quantity p' == 0
                 /\ pos_avg_price p' = 0) /\
     (let cur := fst (current_qty_avg st stock_pid) in
      let avg := snd (current_qty_avg st stock_pid) in
      let delta := signed_fill (ord_action o2) (Qabs q * 100) in
      exists ps, dget stock_pid (positions st') = Some ps /\ pos_quantity ps = cur + delta
                 /\ pos_avg_price ps = new_avg_price cur avg delta k (cur + delta))) /\
  (option_is_itm ot k close = false ->
   exists st',
     process_exercise st symbol position close pos_id = Some st' /\
     orders st' = orders st ++ [(gen_uuid (uuid_next st), close_order)] /\
     (exists p', dget pos_id (positions st') = Some p' /\ pos_quantity p' == 0
                 /\ pos_avg_price p' = 0) /\
     (forall pid, pid <> pos_id -> dget pid (positions st') = dget pid (positions st))).
Proof.
  intros Hk Ht Hp0 Hi0 Hq Hnd Hfr q close_order found.
  split; [|split].
  - unfold option_is_itm. destruct (streq (upper ot) "CALL") eqn:E.
    + apply streq_true in E. rewrite Qltb_true. split.
      * intros H. left. split; assumption.
      * intros [[_ H]|[Hne _]]; [exact H|contradiction].
    + assert (Hne : upper ot <> "CALL").
      { intros Heq. rewrite Heq in E. rewrite streq_refl in E. discriminate. }
      rewrite Qltb_true. split.
      * intros H. right. split; assumption.
      * intros [[Heq _]|[_ H]]; [contradiction|exact H].
  - intros Hitm.
    destruct (exercise_itm_shape st symbol position p0 close pos_id k ot Hk Ht Hitm Hp0 Hi0 Hq Hnd Hfr)
      as [st' [spid [oid2 [He [Hdisj [Hord [Hflat Hstock]]]]]]].
    exists st', spid, oid2, (exercise_stock_order symbol position spid (streq (upper ot) "CALL")).
    split; [exact He|]. split; [exact Hord|].
    do 5 (split; [reflexivity|]). split; [exact Hdisj|]. split; [exact Hflat|].
    destruct Hstock as [ps [Hps [Hpq [Hpa _]]]]. exists ps. auto.
  - intros Hotm.
    exact (exercise_otm_shape st symbol position p0 close pos_id k ot Hk Ht Hotm Hp0 Hq Hfr).
Qed.

Lemma sample_settle_fresh : ids_fresh sample_settle_state.
Proof. intros m _. split; reflexivity. Qed.

Lemma process_exercise_settlement_witness :
  option_is_itm "CALL" 100 105 = true /\
  exists st' stock_pid oid2 o2,
    process_exercise sample_settle_state "XYZ" sample_call 105 "opt1" = Some st' /\
    ord_quantity o2 = Qabs 2 * 100 /\ ord_position_id o2 = stock_pid /\
    orders st' = [(gen_uuid 0, close_option_order "XYZ" sample_call "opt1" 100 "CALL"); (oid2, o2)].
Proof.
  assert (Hnd : NoDup (map fst (positions sample_settle_state))).
  { simpl. constructor; [simpl; intros [H|H]; [discriminate|contradiction]|].
    constructor; [simpl; tauto|constructor]. }
  destruct (process_exercise_settlement sample_settle_state "XYZ" sample_call sample_call 105
              "opt1" 100 "CALL" eq_refl eq_refl eq_refl eq_refl eq_refl Hnd sample_settle_fresh)
    as [_ [Hitm _]].
  split; [reflexivity|].
  destruct (Hitm eq_refl) as [st' [spid [oid2 [o2 [He [Hord [_ [_ [_ [Hqty [Hpid _]]]]]]]]]]].
  exists st', spid, oid2, o2. split; [exact He|]. split; [exact Hqty|]. split; [exact Hpid|].
  exact Hord.
Defined.

Lemma action_buy_sell (b c : bool) :
  ((if Bool.eqb b c then "BUY" else "SELL") = "BUY" <-> (b = true <-> c = true)) /\
  ((if Bool.eqb b c then "BUY" else "SELL") = "SELL" <-> ~ (b = true <-> c = true)).
Proof.
  destruct b, c; simpl; split; split; intros H;
    first [ reflexivity | discriminate
          | (split; intros; first [reflexivity | assumption])
          | (exfalso; apply H; split; intros; first [reflexivity | assumption])
          | (intros [H1 H2]; first [discriminate (H1 eq_refl) | discriminate (H2 eq_refl)])
          | (destruct H as [H1 H2]; first [discriminate (H1 eq_refl) | discriminate (H2 eq_refl)]) ].
Qed.

(** Claim C10: in the money, the synthetic stock order BUYs exactly when
    (the right is CALL) = (the position is long), for |quantity| * 100
    shares filled at the strike: a long CALL buys, a short CALL sells, a long
    PUT sells and a short PUT buys. *)
Theorem exercise_stock_direction (st : pm_state) (symbol : string) (position p0 : position)
    (close : Q) (pos_id : string) (k : Q) (ot : string) :
  pos_strike position = Some k -> pos_option_type position = Some ot ->
  option_is_itm ot k close = true ->
  dget pos_id (positions st) = Some p0 -> pos_instrument_type p0 = "OPTION" ->
  pos_quantity p0 = pos_quantity position ->
  NoDup (map fst (positions st)) -> ids_fresh st ->
  let q := pos_quantity position in
  exists st' oid2 o2,
    process_exercise st symbol position close pos_id = Some st' /\
    In (oid2, o2) (orders st') /\ ord_instrument_type o2 = "STOCK" /\
    (ord_action o2 = "BUY" <-> (upper ot = "CALL" <-> 0 < q)) /\
    (ord_action o2 = "SELL" <-> ~ (upper ot = "CALL" <-> 0 < q)) /\
    ord_quantity o2 = Qabs q * 100 /\
    (let cur := fst (current_qty_avg st (ord_position_id o2)) in
     let avg := snd (current_qty_avg st (ord_position_id o2)) in
     let delta := signed_fill (ord_action o2) (Qabs q * 100) in
     exists ps, dget (ord_position_id o2) (positions st') = Some ps
                /\ pos_avg_price ps = new_avg_price cur avg delta k (cur + delta)).
Proof.
  intros Hk Ht Hitm Hp0 Hi0 Hq Hnd Hfr q. unfold q. clear q.
  destruct (exercise_itm_shape st symbol position p0 close pos_id k ot Hk Ht Hitm Hp0 Hi0 Hq Hnd Hfr)
    as [st' [spid [oid2 [He [_ [Hord [_ Hstock]]]]]]].
  exists st', oid2, (exercise_stock_order symbol position spid (streq (upper ot) "CALL")).
  split; [exact He|]. split.
  { rewrite Hord. apply in_or_app. right. right. left. reflexivity. }
  split; [reflexivity|].
  assert (Hcall : streq (upper ot) "CALL" = true <-> upper ot = "CALL") by apply streq_true.
  assert (Hpos : Qltb 0 (pos_quantity position) = true <-> 0 < pos_quantity position)
    by apply Qltb_true.
  simpl. unfold exercise_stock_action.
  destruct (action_buy_sell (streq (upper ot) "CALL") (Qltb 0 (pos_quantity position)))
    as [Hb Hs].
  split; [|split; [|split; [reflexivity|]]].
  - rewrite Hb. rewrite Hcall, Hpos. tauto.
  - rewrite Hs. rewrite Hcall, Hpos. tauto.
  - destruct Hstock as [ps [Hps [_ [Hpa _]]]]. exists ps. split; assumption.
Qed.

Lemma exercise_stock_direction_witness :
  exists st' oid2 o2,
    process_exercise sample_settle_state "XYZ" sample_call 105 "opt1" = Some st' /\
    In (oid2, o2) (orders st') /\ ord_action o2 = "BUY" /\ ord_quantity o2 = Qabs 2 * 100.
Proof.
  assert (Hnd : NoDup (map fst (positions sample_settle_state))).
  { simpl. constructor; [simpl; intros [H|H]; [discriminate|contradiction]|].
    constructor; [simpl; tauto|constructor]. }
  destruct (exercise_stock_direction sample_settle_state "XYZ" sample_call sample_call 105
              "opt1" 100 "CALL" eq_refl eq_refl eq_refl eq_refl eq_refl eq_refl Hnd sample_settle_fresh)
    as [st' [oid2 [o2 [He [Hin [_ [Hbuy [_ [Hqty _]]]]]]]]].
  exists st', oid2, o2. split; [exact He|]. split; [exact Hin|]. split; [|exact Hqty].
  apply Hbuy. split; [intros _; reflexivity|intros _; reflexivity].
Defined.

(** ** Dynamic-Limit order creation *)

(** C4 (Dynamic-Limit limit price): on the live path the factory builds the
    dynamic_limit.py strategy, whose [create_order] bids at the bid.  For a
    BUY quoted 9.95 / 10.05 with a 0.05 tick the order goes out at 9.95,
    while the stated rule, and the limit_orders.py [create_order], give the
    tick-rounded mid 10.00. *)
Theorem dynamic_limit_live_price_diverges :
  create_execution_strategy dl_signal 0 = Returned (LiveLegacy (Legacy.init dl_signal 60 0)) /\
  io_lmtPrice (fst (Legacy.create_order (Legacy.init dl_signal 60 0) dl_market 0))
    = Some (995 # 100) /\
  (exists p, spec_dl_limit_price "BUY" (get_quote dl_market "XYZ") (5 # 100) = Some p /\ p == 10) /\
  (exists o p, dl_create_order dl_signal dl_market "XYZ" = Returned (Some o) /\
               io_lmtPrice o = Some p /\ p == 10) /\
  ~ (995 # 100 == 10).
Proof.
  split; [reflexivity|].
  split; [reflexivity|].
  split; [eexists; split; [vm_compute; reflexivity | vm_compute; reflexivity]|].
  split; [do 2 eexists; split; [vm_compute; reflexivity | split; [reflexivity | vm_compute; reflexivity]]|].
  vm_compute. discriminate.
Qed.

(** ** Dynamic-Limit conversion to market *)

Lemma modify_order_converted (s : xstrategy) (a : app) (changes : list order_change) :
  xs_converted_to_market (fst (modify_order s a changes)) = xs_converted_to_market s.
Proof.
  unfold modify_order.
  destruct (xs_ib_order_id s), (xs_current_order s); try reflexivity.
  destruct (negb (z =? 0)%Z && streq (xs_status s) "ACTIVE"); reflexivity.
Qed.

Lemma dl_reprice_converted (s : xstrategy) (a : app) (m : market) (symbol : string) :
  xs_converted_to_market (fst (dl_reprice s a m symbol)) = xs_converted_to_market s.
Proof.
  unfold dl_reprice.
  repeat match goal with
  | |- context [let '(_, _) := modify_order ?s ?a ?c in _] =>
      pose proof (modify_order_converted s a c);
      destruct (modify_order s a c); simpl in *; assumption
  | |- context [match ?x with _ => _ end] => destruct x
  | |- context [if ?b then _ else _] => destruct b
  end; reflexivity.
Qed.

Lemma modify_order_in_place (s : xstrategy) (a : app) (changes : list order_change)
    (ib : Z) (cur : ib_order) :
  xs_ib_order_id s = Some ib -> xs_current_order s = Some cur -> ib <> 0%Z ->
  xs_status s = "ACTIVE" ->
  modify_order s a changes =
    (xs_set_current s (Some (fold_left apply_change changes cur)),
     placeOrder a ib (fold_left apply_change changes cur)).
Proof.
  intros Hib Hcur Hnz Hst. unfold modify_order. rewrite Hib, Hcur, Hst, streq_refl.
  destruct (Z.eqb_spec ib 0); [contradiction|]. reflexivity.
Qed.

(** ** Keys of the running application's [active_executions] *)

Lemma pykey_eqb_true (k k' : pykey) : pykey_eqb k k' = true <-> k = k'.
Proof.
  destruct k, k'; simpl; split; intros H; try discriminate; try congruence;
    first [ apply streq_true in H; subst; reflexivity
          | apply Z.eqb_eq in H; subst; reflexivity
          | injection H as ->; first [apply streq_refl | apply Z.eqb_refl] ].
Qed.

Lemma pykey_eqb_refl (k : pykey) : pykey_eqb k k = true.
Proof. apply pykey_eqb_true. reflexivity. Qed.

Lemma pykey_eqb_false (k k' : pykey) : k <> k' -> pykey_eqb k k' = false.
Proof.
  intros Hne. destruct (pykey_eqb k k') eqn:E; [|reflexivity].
  apply pykey_eqb_true in E. contradiction.
Qed.

Lemma pget_pset_same {V} (k : pykey) (v : V) (d : list (pykey * V)) :
  pget k (pset k v d) = Some v.
Proof.
  induction d as [|[k' v'] r IH]; simpl.
  - rewrite pykey_eqb_refl. reflexivity.
  - destruct (pykey_eqb k k') eqn:E; simpl; rewrite E; [reflexivity | exact IH].
Qed.

Lemma pget_pset_other {V} (k k' : pykey) (v : V) (d : list (pykey * V)) :
  k' <> k -> pget k' (pset k v d) = pget k' d.
Proof.
  intros Hne. induction d as [|[k0 v0] r IH]; simpl.
  - rewrite (pykey_eqb_false _ _ Hne). reflexivity.
  - destruct (pykey_eqb k k0) eqn:E; simpl.
    + apply pykey_eqb_true in E. subst k0. rewrite (pykey_eqb_false _ _ Hne). reflexivity.
    + destruct (pykey_eqb k' k0); [reflexivity | exact IH].
Qed.

Lemma pget_ppop {V} (k k' : pykey) (d : list (pykey * V)) :
  pget k' (ppop k d) = if pykey_eqb k' k then None else pget k' d.
Proof.
  unfold ppop. induction d as [|[k0 v0] r IH]; simpl.
  - destruct (pykey_eqb k' k); reflexivity.
  - destruct (pykey_eqb k0 k) eqn:E0; simpl.
    + apply pykey_eqb_true in E0. subst k0. rewrite IH.
      destruct (pykey_eqb k' k); reflexivity.
    + destruct (pykey_eqb k' k0) eqn:E; [|exact IH].
      apply pykey_eqb_true in E. subst k'. rewrite E0. reflexivity.
Qed.

Lemma pget_in {V} (k : pykey) (v : V) (d : list (pykey * V)) :
  pget k d = Some v -> In (k, v) d.
Proof.
  induction d as [|[k0 v0] r IH]; simpl; [discriminate|].
  destruct (pykey_eqb k k0) eqn:E.
  - apply pykey_eqb_true in E. subst. intros H. injection H as <-. left. reflexivity.
  - intros H. right. exact (IH H).
Qed.

Lemma pget_none_notin {V} (k : pykey) (d : list (pykey * V)) :
  pget k d = None -> ~ In k (map fst d).
Proof.
  induction d as [|[k0 v0] r IH]; simpl; [tauto|].
  destruct (pykey_eqb k k0) eqn:E; [discriminate|].
  intros H [Heq|Hin].
  - subst. rewrite pykey_eqb_refl in E. discriminate.
  - exact (IH H Hin).
Qed.

Lemma execution_key_legacy_not_str (l : Legacy.lstrategy) (u : string) :
  execution_key (LiveLegacy l) <> KStr u.
Proof. simpl. destruct (Legacy.l_order_id l); discriminate. Qed.

Lemma pset_keeps_legacy (k k0 : pykey) (x : xstrategy) (l : Legacy.lstrategy)
    (d : list (pykey * live_strategy)) :
  pget k (pset k0 (LiveX x) d) = Some (LiveLegacy l) -> pget k d = Some (LiveLegacy l).
Proof.
  destruct (pykey_eqb k k0) eqn:E.
  - apply pykey_eqb_true in E. subst. rewrite pget_pset_same. discriminate.
  - rewrite pget_pset_other; [tauto|]. intros ->. rewrite pykey_eqb_refl in E. discriminate.
Qed.

Lemma live_monitor_one_legacy (m : market) (fs : xstrategy -> string) (now : Q) (la : live_app)
    (entry : pykey * live_strategy) (k : pykey) (l : Legacy.lstrategy) :
  pget k (la_executions (live_monitor_one m fs now la entry)) = Some (LiveLegacy l) ->
  pget k (la_executions la) = Some (LiveLegacy l).
Proof.
  unfold live_monitor_one. destruct entry as [k0 [x|l0]]; [|tauto].
  destruct (check_and_update x (la_app la) m (fs x) now) as [x1 a1].
  destruct (is_complete x1); cbn [la_executions]; [|apply pset_keeps_legacy].
  rewrite pget_ppop. destruct (pykey_eqb k k0); [discriminate|]. apply pset_keeps_legacy.
Qed.

Lemma live_monitor_fold_legacy (m : market) (fs : xstrategy -> string) (now : Q)
    (L : list (pykey * live_strategy)) (la : live_app) (k : pykey) (l : Legacy.lstrategy) :
  pget k (la_executions (fold_left (live_monitor_one m fs now) L la)) = Some (LiveLegacy l) ->
  pget k (la_executions la) = Some (LiveLegacy l).
Proof.
  revert la. induction L as [|e r IH]; simpl; intros la H; [exact H|].
  apply (live_monitor_one_legacy m fs now la e). apply IH. exact H.
Qed.

Lemma live_step_legacy (la : live_app) (e : live_event) (k : pykey) (l : Legacy.lstrategy) :
  (forall k' l', pget k' (la_executions la) = Some (LiveLegacy l') ->
     k' = execution_key (LiveLegacy l')) ->
  pget k (la_executions (live_step la e)) = Some (LiveLegacy l) ->
  pget k (la_executions la) = Some (LiveLegacy l) \/
  (k = execution_key (LiveLegacy l) /\
   exists l0 o, e = LSubmit (LiveLegacy l0) o /\ l = fst (Legacy.place_order l0 (la_app la) o)).
Proof.
  intros Hinv H.
  destruct e as [ls o | ib st f r p lf now | m fs now | g]; cbn [live_step] in H.
  - unfold live_submit in H. destruct ls as [x|l0].
    + destruct (place_order x (la_app la) o) as [x1 a1]. cbn [la_executions] in H.
      left. exact (pset_keeps_legacy _ _ _ _ _ H).
    + destruct (Legacy.place_order l0 (la_app la) o) as [l1 a1] eqn:Ep. cbn [la_executions] in H.
      destruct (pykey_eqb k (execution_key (LiveLegacy l1))) eqn:E.
      * apply pykey_eqb_true in E. subst k. rewrite pget_pset_same in H.
        injection H as <-. right. split; [reflexivity|].
        exists l0, o. split; [reflexivity|]. rewrite Ep. reflexivity.
      * left. rewrite pget_pset_other in H; [exact H|].
        intros ->. rewrite pykey_eqb_refl in E. discriminate.
  - unfold live_orderStatus in H.
    destruct (zget ib (ib_to_uuid_map (la_app la))) as [u|]; [|left; exact H].
    destruct (negb (str_truthy u)); [left; exact H|].
    destruct (pget (KStr u) (la_executions la)) as [[x|l0]|] eqn:Eg.
    + cbn [la_executions] in H. left. exact (pset_keeps_legacy _ _ _ _ _ H).
    + exfalso. exact (execution_key_legacy_not_str l0 u (eq_sym (Hinv _ _ Eg))).
    + left. exact H.
  - left. exact (live_monitor_fold_legacy m fs now (la_executions la) la k l H).
  - left. exact H.
Qed.

Lemma run_live_legacy_keys (la : live_app) (evs : list live_event) :
  (forall k l, pget k (la_executions la) = Some (LiveLegacy l) -> k = execution_key (LiveLegacy l)) ->
  forall k l, pget k (la_executions (run_live la evs)) = Some (LiveLegacy l) ->
    k = execution_key (LiveLegacy l).
Proof.
  revert la. induction evs as [|e r IH]; simpl; intros la Hinv; [exact Hinv|].
  apply IH. intros k l H.
  destruct (live_step_legacy la e k l Hinv H) as [H'|[Hk _]]; [exact (Hinv k l H') | exact Hk].
Qed.

(** C5 (Dynamic-Limit conversion), for both Dynamic-Limit classes.
    The limit_orders.py class: for a strategy with base timeout [T], the
    periodic [check_and_update] sets the converted flag only once the
    effective timeout ([T], or [T * 1.5] after a partial fill) has elapsed,
    and it then does so by [modify_order] with {MKT, IOC, price 0}, which
    re-submits the current order under the same broker id; an active
    unconverted order past that timeout is converted; a converted strategy
    is left untouched by the check, and status callbacks never clear the
    flag, so the conversion happens at most once.
    The dynamic_limit.py class, which the factory builds for every
    DYNAMIC_LIMIT signal: in every state the running application reaches
    from an empty [active_executions], [orderStatus] never finds such a
    strategy under the uuid string it looks up (the strategy is stored under
    its integer broker id), and no event but its own submission changes it;
    its cancel-and-re-place conversion in [process_order_status], the only
    conversion code it has, is never run. *)
Theorem dynamic_limit_conversion (T : Q) (s : xstrategy) (a : app) (m : market)
    (symbol : string) (now : Q) :
  (xs_variant s = DynamicLimit T ->
   (xs_converted_to_market s = false ->
    xs_converted_to_market (fst (check_and_update s a m symbol now)) = true ->
    Qltb (effective_timeout T (xs_has_partial_fill s)) (now - xs_start_time s) = true /\
    check_and_update s a m symbol now =
      (xs_set_converted (fst (modify_order s a market_conversion)),
       snd (modify_order s a market_conversion))) /\
   (forall ib cur, xs_ib_order_id s = Some ib -> xs_current_order s = Some cur -> ib <> 0%Z ->
      xs_status s = "ACTIVE" ->
      gw_log (snd (modify_order s a market_conversion)) =
        gw_log a ++ [GwPlace ib (mkIBOrder (io_action cur) (io_totalQuantity cur) "MKT" "IOC" (Some 0))
                       (zmem ib (ib_to_uuid_map a))] /\
      xs_ib_order_id (fst (modify_order s a market_conversion)) = Some ib) /\
   (xs_converted_to_market s = true -> check_and_update s a m symbol now = (s, a)) /\
   (forall status filled remaining avgFillPrice,
      xs_converted_to_market (process_order_status s status filled remaining avgFillPrice)
        = xs_converted_to_market s) /\
   (xs_status s = "ACTIVE" -> opt_str_truthy (xs_order_id s) = true ->
    xs_converted_to_market s = false ->
    Qltb (effective_timeout T (xs_has_partial_fill s)) (now - xs_start_time s) = true ->
    xs_converted_to_market (fst (check_and_update s a m symbol now)) = true)) /\
  (forall sig t, sig_execution_strategy sig = Some "DYNAMIC_LIMIT" ->
     exists l, create_execution_strategy sig t = Returned (LiveLegacy l)) /\
  (forall a0 evs,
     let la := run_live (mkLive a0 []) evs in
     (forall ib u, zget ib (ib_to_uuid_map (la_app la)) = Some u ->
        match pget (KStr u) (la_executions la) with
        | Some (LiveLegacy _) => False
        | _ => True
        end) /\
     (forall e k l, pget k (la_executions (live_step la e)) = Some (LiveLegacy l) ->
        pget k (la_executions la) = Some (LiveLegacy l) \/
        exists l0 o, e = LSubmit (LiveLegacy l0) o /\ l = fst (Legacy.place_order l0 (la_app la) o))).
Proof.
  split; [|split].
  { intros Hv. unfold check_and_update. rewrite Hv.
  split; [|split; [|split; [|split]]].
  - intros Hc. rewrite Hc. simpl.
    destruct (negb (streq (xs_status s) "ACTIVE") || negb (opt_str_truthy (xs_order_id s))).
    + simpl. rewrite Hc. discriminate.
    + unfold timeout_exceeded.
      destruct (Qltb (effective_timeout T (xs_has_partial_fill s)) (now - xs_start_time s)).
      * intros _. split; [reflexivity|].
        destruct (modify_order s a market_conversion); reflexivity.
      * destruct (Nat.ltb (xs_attempts s) 3); simpl.
        -- rewrite dl_reprice_converted, Hc. discriminate.
        -- rewrite Hc. discriminate.
  - intros ib cur Hib Hcur Hnz Hst.
    rewrite (modify_order_in_place s a market_conversion ib cur Hib Hcur Hnz Hst). simpl.
    split; [reflexivity | exact Hib].
  - intros Hc. rewrite Hc. simpl.
    destruct (negb (streq (xs_status s) "ACTIVE") || negb (opt_str_truthy (xs_order_id s)));
      reflexivity.
  - intros status filled remaining avgFillPrice. unfold process_order_status.
    destruct (Qltb 0 filled && Qltb 0 remaining); [reflexivity|].
    destruct (streq status "Filled"); [reflexivity|].
    destruct (streq status "Cancelled"); reflexivity.
  - intros Hst Ho Hc Ht. rewrite Hst, streq_refl, Ho, Hc. simpl.
    unfold timeout_exceeded. rewrite Ht.
    destruct (modify_order s a market_conversion); reflexivity. }
  - intros sig t Hs. unfold create_execution_strategy. rewrite Hs. eexists. reflexivity.
  - intros a0 evs la.
    assert (Hinv : forall k l, pget k (la_executions la) = Some (LiveLegacy l) ->
                     k = execution_key (LiveLegacy l)).
    { apply run_live_legacy_keys. intros k l H. discriminate H. }
    split.
    + intros ib u _. destruct (pget (KStr u) (la_executions la)) as [[x|l]|] eqn:E; try exact I.
      exact (execution_key_legacy_not_str l u (eq_sym (Hinv _ _ E))).
    + intros e k l H. destruct (live_step_legacy la e k l Hinv H) as [H'|[_ H']];
        [left; exact H' | right; exact H'].
Qed.

Lemma dynamic_limit_conversion_witness :
  xs_variant dl_live = DynamicLimit 60 /\
  xs_converted_to_market (fst (check_and_update dl_live fresh_app dl_market "XYZ" 61)) = true.
Proof.
  split; [reflexivity|].
  apply (proj2 (proj2 (proj2 (proj2
    (proj1 (dynamic_limit_conversion 60 dl_live fresh_app dl_market "XYZ" 61) eq_refl))))).
  - reflexivity.
  - vm_compute. reflexivity.
  - reflexivity.
  - vm_compute. reflexivity.
Defined.

(** ** Submission and the broker-id translation table *)

Lemma zget_zset_same {V} (k : Z) (v : V) (d : list (Z * V)) : zget k (zset k v d) = Some v.
Proof.
  induction d as [|[k' v'] r IH]; simpl.
  - rewrite Z.eqb_refl. reflexivity.
  - destruct (Z.eqb_spec k k') as [->|Hne]; simpl.
    + rewrite Z.eqb_refl. reflexivity.
    + apply Z.eqb_neq in Hne. rewrite Hne. exact IH.
Qed.

(** [execution_base.place_order] records the mapping before [placeOrder]. *)
Lemma place_order_mapped (s : xstrategy) (a : app) (o : ib_order) :
  gw_log (snd (place_order s a o)) = gw_log a \/
  exists n, gw_log (snd (place_order s a o)) = gw_log a ++ [GwPlace n o true] /\
            next_order_id a = Some n.
Proof.
  unfold place_order. destruct (next_order_id a) as [n|]; [|left; reflexivity].
  destruct (Z.eqb n 0); [left; reflexivity|].
  destruct (generate_id (app_pm a)) as [uuid pm']. right. exists n. simpl.
  unfold zmem. rewrite zget_zset_same. split; reflexivity.
Qed.

(** C8 (mapping recorded before submission): a Dynamic-Limit signal gets
    the dynamic_limit.py strategy, whose [place_order] hands the order to
    the gateway under broker id 1 with no [ib_to_uuid_map] entry, so the
    fill callback for id 1 is dropped and the ledger never sees the fill;
    only the [execution_base] [place_order] records the entry first. *)
Theorem legacy_submission_unmapped :
  create_execution_strategy dl_signal 0 = Returned (LiveLegacy (Legacy.init dl_signal 60 0)) /\
  (let '(o, s1) := Legacy.create_order (Legacy.init dl_signal 60 0) dl_market 0 in
   let '(s2, a2) := Legacy.place_order s1 fresh_app o in
   Legacy.l_order_id s2 = Some 1%Z /\
   gw_log a2 = [GwPlace 1 o false] /\
   ib_to_uuid_map a2 = [] /\
   orderStatus a2 1 "Filled" 100 0 (995 # 100) (995 # 100) = a2) /\
  (forall s o, exists n,
     gw_log (snd (place_order s fresh_app o)) = [GwPlace n o true]).
Proof.
  split; [reflexivity|]. split.
  - vm_compute. repeat split; reflexivity.
  - intros s o. destruct (place_order_mapped s fresh_app o) as [H|[n [H _]]].
    + exfalso. revert H. unfold place_order. simpl.
      destruct (generate_id (mkPM [] [] 0)). simpl. discriminate.
    + exists n. exact H.
Qed.

(** ** Completion *)

Lemma legacy_place_order_status (s : Legacy.lstrategy) (a : app) (o : ib_order) :
  Legacy.l_status (fst (Legacy.place_order s a o)) = Legacy.l_status s \/
  Legacy.l_status (fst (Legacy.place_order s a o)) = "ACTIVE".
Proof.
  unfold Legacy.place_order. destruct (next_order_id a) as [n|]; [|left; reflexivity].
  destruct (Z.eqb n 0); [left | right]; reflexivity.
Qed.

(** A legacy strategy is only ever PENDING, ACTIVE or COMPLETED. *)
Lemma legacy_reachable_status (s : Legacy.lstrategy) :
  Legacy.reachable s ->
  Legacy.l_status s = "PENDING" \/ Legacy.l_status s = "ACTIVE" \/
  Legacy.l_status s = "COMPLETED".
Proof.
  induction 1 as [sig T now | s m now _ IH | s a o _ IH
                 | s a status filled remaining avgFillPrice now s' a' _ IH Hstep].
  - left. reflexivity.
  - exact IH.
  - destruct (legacy_place_order_status s a o) as [H|H]; rewrite H; [exact IH | right; left; reflexivity].
  - unfold Legacy.process_order_status in Hstep.
    destruct (streq status "Filled").
    + injection Hstep as <- _. right; right; reflexivity.
    + destruct (Legacy.timeout_exceeded s now (Legacy.l_timeout_seconds s)).
      * injection Hstep as Hp.
        pose proof (legacy_place_order_status s (Legacy.cancel_order s a)
          (mkIBOrder (sig_action (Legacy.l_signal s)) remaining "MKT" "DAY" None)) as H.
        rewrite Hp in H. simpl in H. destruct H as [H|H]; rewrite H; [exact IH | right; left; reflexivity].
      * destruct (Legacy.l_last_price_update s) as [t|].
        -- destruct (Qltb 10 (now - t) && Nat.ltb (Legacy.l_attempts s) 3);
             [discriminate | injection Hstep as <- _; exact IH].
        -- injection Hstep as <- _. exact IH.
Qed.

(** C9 (completion test): the [execution_base] [is_complete] of every
    factory-built variant is true exactly for COMPLETED and CANCELLED, and
    the dynamic_limit.py [is_complete] agrees on every state its strategy
    can reach, since none of its methods sets CANCELLED. *)
Theorem is_complete_iff_final :
  (forall s, is_complete s = true <-> xs_status s = "COMPLETED" \/ xs_status s = "CANCELLED") /\
  (forall s, Legacy.reachable s ->
     Legacy.is_complete s = true <->
     Legacy.l_status s = "COMPLETED" \/ Legacy.l_status s = "CANCELLED").
Proof.
  split.
  - intros s. unfold is_complete. simpl. rewrite orb_false_r, orb_true_iff.
    rewrite !streq_true. reflexivity.
  - intros s Hr. unfold Legacy.is_complete. rewrite streq_true.
    destruct (legacy_reachable_status s Hr) as [H|[H|H]]; rewrite H;
      split; (intros Hx; first [reflexivity | discriminate | destruct Hx as [Hx|Hx]; discriminate | now left]).
Qed.

Lemma is_complete_iff_final_witness :
  Legacy.reachable (Legacy.init dl_signal 60 0) /\
  Legacy.is_complete (Legacy.init dl_signal 60 0) = false.
Proof.
  assert (Hr : Legacy.reachable (Legacy.init dl_signal 60 0)) by constructor.
  split; [exact Hr|].
  destruct (Legacy.is_complete (Legacy.init dl_signal 60 0)) eqn:E; [|reflexivity].
  apply (proj2 is_complete_iff_final _ Hr) in E.
  destruct E as [E|E]; discriminate.
Defined.

(** * Further properties of the code *)

(** ** Status callbacks of [execution_base] *)

(** X1: a callback reporting a partial fill (filled > 0 and remaining > 0)
    keeps the strategy ACTIVE and marks the partial fill whatever the status
    string says, even "Cancelled"; otherwise Filled makes it COMPLETED,
    Cancelled makes it CANCELLED and any other status keeps it ACTIVE; the
    partial-fill flag is never cleared, and the filled quantity and average
    price are the callback's. *)
Theorem process_order_status_transitions (s : xstrategy) (status : string)
    (filled remaining avgFillPrice : Q) :
  let s' := process_order_status s status filled remaining avgFillPrice in
  (0 < filled -> 0 < remaining -> xs_status s' = "ACTIVE" /\ xs_has_partial_fill s' = true) /\
  ((filled <= 0 \/ remaining <= 0) -> status = "Filled" -> xs_status s' = "COMPLETED") /\
  ((filled <= 0 \/ remaining <= 0) -> status = "Cancelled" -> xs_status s' = "CANCELLED") /\
  (status <> "Filled" -> status <> "Cancelled" -> xs_status s' = "ACTIVE") /\
  (xs_has_partial_fill s = true -> xs_has_partial_fill s' = true) /\
  xs_filled_quantity s' = filled /\ xs_avg_fill_price s' = avgFillPrice /\
  xs_variant s' = xs_variant s /\ xs_order_id s' = xs_order_id s /\
  xs_ib_order_id s' = xs_ib_order_id s.
Proof.
  intros s'. unfold s', process_order_status. simpl.
  destruct (Qltb 0 filled && Qltb 0 remaining) eqn:E.
  - apply andb_prop in E. destruct E as [Ef Er]. apply Qltb_true in Ef, Er.
    split; [intros; split; reflexivity|].
    split; [intros [H|H]; lra|]. split; [intros [H|H]; lra|].
    repeat split; intros; reflexivity.
  - split.
    + intros Hf Hr. apply Qltb_true in Hf, Hr. rewrite Hf, Hr in E. discriminate.
    + split; [intros _ ->; reflexivity|].
      split; [intros _ ->; reflexivity|].
      split.
      * intros Hn1 Hn2. rewrite (streq_false _ _ Hn1), (streq_false _ _ Hn2). reflexivity.
      * destruct (streq status "Filled"); [repeat split; intros; assumption|].
        destruct (streq status "Cancelled"); repeat split; intros; assumption.
Qed.

(** ** Submission *)

(** X2: [place_order] with a live broker id [n] takes a fresh uuid as the
    order id, maps [n] to it (leaving every other mapping as it was), moves
    [next_order_id] to [n + 1], keeps the order as the current order and
    marks the strategy ACTIVE; without a usable id it changes nothing. *)
Theorem place_order_registers (s : xstrategy) (a : app) (o : ib_order) :
  (forall n, next_order_id a = Some n -> n <> 0%Z ->
   let '(s', a') := place_order s a o in
   xs_order_id s' = Some (gen_uuid (uuid_next (app_pm a))) /\
   xs_ib_order_id s' = Some n /\
   zget n (ib_to_uuid_map a') = Some (gen_uuid (uuid_next (app_pm a))) /\
   (forall k, k <> n -> zget k (ib_to_uuid_map a') = zget k (ib_to_uuid_map a)) /\
   next_order_id a' = Some (n + 1)%Z /\
   xs_current_order s' = Some o /\ xs_status s' = "ACTIVE" /\
   uuid_next (app_pm a') = S (uuid_next (app_pm a))) /\
  (next_order_id a = None \/ next_order_id a = Some 0%Z -> place_order s a o = (s, a)).
Proof.
  split.
  - intros n Hn Hnz. unfold place_order. rewrite Hn.
    destruct (Z.eqb_spec n 0); [contradiction|]. simpl.
    repeat split.
    + apply zget_zset_same.
    + intros k Hk. clear Hn. induction (ib_to_uuid_map a) as [|[k' v'] r IH]; simpl.
      * destruct (Z.eqb_spec k n); [contradiction|reflexivity].
      * destruct (Z.eqb_spec n k') as [->|Hne]; simpl.
        -- destruct (Z.eqb_spec k k'); [contradiction|reflexivity].
        -- destruct (Z.eqb k k'); [reflexivity|exact IH].
  - intros [H|H]; unfold place_order; rewrite H; reflexivity.
Qed.

Lemma place_order_registers_witness :
  next_order_id fresh_app = Some 1%Z /\
  zget 1 (ib_to_uuid_map (snd (place_order dl_live fresh_app (mkIBOrder "BUY" 100 "MKT" "IOC" None))))
    = Some (gen_uuid 0).
Proof.
  split; [reflexivity|].
  pose proof (proj1 (place_order_registers dl_live fresh_app (mkIBOrder "BUY" 100 "MKT" "IOC" None))
                1%Z eq_refl ltac:(discriminate)) as H.
  destruct (place_order dl_live fresh_app (mkIBOrder "BUY" 100 "MKT" "IOC" None)) as [s' a'].
  destruct H as [_ [_ [H _]]]. exact H.
Defined.

(** ** Ledger queries *)

(** X3: [get_all_positions] with a truthy strategy id returns, in ledger
    order, exactly the positions of that strategy; with a falsy or absent id
    it returns the whole ledger. *)
Theorem get_all_positions_filter (st : pm_state) (strategy_id : option string) :
  (forall sid, strategy_id = Some sid -> str_truthy sid = true ->
     forall k p, In (k, p) (get_all_positions st strategy_id) <->
                 In (k, p) (positions st) /\ pos_strategy_id p = sid) /\
  (forall sid, strategy_id = Some sid -> str_truthy sid = false ->
     get_all_positions st strategy_id = positions st) /\
  (strategy_id = None -> get_all_positions st strategy_id = positions st).
Proof.
  split; [|split].
  - intros sid -> Ht k p. unfold get_all_positions. rewrite Ht.
    rewrite filter_In. simpl. rewrite streq_true. reflexivity.
  - intros sid -> Hf. unfold get_all_positions. rewrite Hf. reflexivity.
  - intros ->. reflexivity.
Qed.

Lemma get_all_positions_filter_witness :
  get_all_positions sample_settle_state (Some "") = positions sample_settle_state.
Proof.
  exact (proj1 (proj2 (get_all_positions_filter sample_settle_state (Some ""))) "" eq_refl eq_refl).
Defined.

(** X4: [create_order_info] raises exactly when the signal lacks
    [execution_strategy], or is an OPTION lacking strike, expiry or
    option type, or a FUTURE lacking expiry; a signal without
    [execution_strategy] therefore never reaches the factory's MARKET
    default. *)
Theorem create_order_info_raises (st : pm_state) (sx : signal_ext) :
  create_order_info st sx = Raises <->
  sig_execution_strategy (sx_sig sx) = None \/
  (sig_type (sx_sig sx) = "OPTION" /\
     (sx_strike sx = None \/ sx_expiry sx = None \/ sx_option_type sx = None)) \/
  (sig_type (sx_sig sx) = "FUTURE" /\ sx_expiry sx = None).
Proof.
  unfold create_order_info.
  destruct (streq (sig_type (sx_sig sx)) "OPTION") eqn:Eo.
  - apply streq_true in Eo. rewrite Eo.
    destruct (sx_strike sx), (sx_expiry sx), (sx_option_type sx); simpl;
      try (split; [intros _; right; left; split; [reflexivity|]; tauto|reflexivity]).
    destruct (get_or_create_position_id st (sig_ticker (sx_sig sx)) "OPTION"
                (sig_strategy_id (sx_sig sx)) (Some q) (Some s) (Some s0)).
    destruct (sig_execution_strategy (sx_sig sx)).
    + split; [discriminate|]. intros [H|[[_ [H|[H|H]]]|[H _]]]; discriminate.
    + split; [intros _; left; reflexivity|reflexivity].
  - assert (Hno : sig_type (sx_sig sx) <> "OPTION").
    { intros H. rewrite H in Eo. discriminate. }
    destruct (streq (sig_type (sx_sig sx)) "FUTURE") eqn:Ef.
    + apply streq_true in Ef. rewrite Ef in *.
      destruct (sx_expiry sx).
      * destruct (get_or_create_position_id st (sig_ticker (sx_sig sx)) "FUTURE"
                    (sig_strategy_id (sx_sig sx)) None (Some s) None).
        destruct (sig_execution_strategy (sx_sig sx)).
        -- split; [discriminate|]. intros [H|[[H _]|[_ H]]]; [discriminate|contradiction|discriminate].
        -- split; [intros _; left; reflexivity|reflexivity].
      * split; [intros _; right; right; split; reflexivity|reflexivity].
    + assert (Hnf : sig_type (sx_sig sx) <> "FUTURE").
      { intros H. rewrite H in Ef. discriminate. }
      destruct (get_or_create_position_id st (sig_ticker (sx_sig sx)) (sig_type (sx_sig sx))
                  (sig_strategy_id (sx_sig sx)) None None None).
      destruct (sig_execution_strategy (sx_sig sx)).
      * split; [discriminate|]. intros [H|[[H _]|[H _]]]; [discriminate|contradiction|contradiction].
      * split; [intros _; left; reflexivity|reflexivity].
Qed.

(** ** Fill accounting *)

Lemma position_delta_orders (st st' : pm_state) (pid : string) (fs : list fill) :
  orders st' = orders st -> position_delta st' pid fs = position_delta st pid fs.
Proof. intros H. unfold position_delta. rewrite H. reflexivity. Qed.

(** X5: after any sequence of fills, a position's quantity (0 when absent)
    is its quantity before plus the signed size of the fills whose order
    books into it (BUY adds, anything else subtracts); fills of unknown
    orders or of other positions do not move it. *)
Theorem apply_fills_quantity (st : pm_state) (pid : string) (fs : list fill) :
  fst (current_qty_avg (apply_fills st fs) pid) ==
  fst (current_qty_avg st pid) + position_delta st pid fs.
Proof.
  revert st. induction fs as [|[[oid q] pr] r IH]; intros st.
  - simpl. ring.
  - simpl apply_fills. rewrite IH.
    rewrite (position_delta_orders st (process_fill st oid q pr) pid r (orders_process_fill st oid q pr)).
    simpl position_delta at 2.
    destruct (dget oid (orders st)) as [o|] eqn:Ho.
    + destruct (streq (ord_position_id o) pid) eqn:Ep.
      * apply streq_true in Ep. subst pid.
        unfold current_qty_avg at 1. rewrite (process_fill_stored st oid o q pr Ho). simpl.
        unfold current_qty_avg. ring.
      * assert (Hne : pid <> ord_position_id o).
        { intros ->. rewrite streq_refl in Ep. discriminate. }
        unfold current_qty_avg at 1. rewrite (process_fill_other st oid o q pr pid Ho Hne).
        fold (current_qty_avg st pid). ring.
    + rewrite (process_fill_unknown st oid q pr Ho). ring.
Qed.

Lemma new_avg_price_between (c a f p : Q) :
  ~ c + f == 0 -> Qmin a p <= new_avg_price c a f p (c + f) <= Qmax a p.
Proof.
  intros Hnz.
  assert (Hmin : Qmin a p <= a /\ Qmin a p <= p) by (split; [apply Q.le_min_l | apply Q.le_min_r]).
  assert (Hmax : a <= Qmax a p /\ p <= Qmax a p) by (split; [apply Q.le_max_l | apply Q.le_max_r]).
  unfold new_avg_price.
  destruct (Qeq_bool (c + f) 0) eqn:Ez; [apply Qeq_bool_iff in Ez; contradiction|]. unfold negb.
  destruct (Qltb 0 (c * (c + f))) eqn:Es; [|split; tauto].
  destruct (Qltb (Qabs c) (Qabs (c + f))) eqn:Eg; [|split; tauto].
  apply Qltb_true in Es, Eg.
  assert (Hsum : Qabs (c + f) == Qabs c + Qabs f).
  { destruct (Qlt_le_dec 0 c) as [Hc|Hc].
    - assert (Hn : 0 < c + f) by nra.
      rewrite (Qabs_pos c) in Eg |- * by lra. rewrite (Qabs_pos (c + f)) in Eg |- * by lra.
      rewrite (Qabs_pos f) by lra. ring.
    - assert (Hc' : c < 0).
      { destruct (Qle_lt_or_eq c 0 Hc) as [H|H]; [exact H|].
        rewrite H in Es. lra. }
      assert (Hn : c + f < 0) by nra.
      rewrite (Qabs_neg c) in Eg |- * by lra. rewrite (Qabs_neg (c + f)) in Eg |- * by lra.
      rewrite (Qabs_neg f) by lra. ring. }
  rewrite Hsum.
  assert (Hw : 0 <= Qabs c) by apply Qabs_nonneg.
  assert (Hv : 0 <= Qabs f) by apply Qabs_nonneg.
  assert (HD : 0 < Qabs c + Qabs f).
  { rewrite <- Hsum. apply Qle_lt_trans with (Qabs c); assumption. }
  split.
  - apply Qle_shift_div_l; [exact HD|]. nra.
  - apply Qle_shift_div_r; [exact HD|]. nra.
Qed.

(** X6: when a fill leaves its position non-flat, the position's new average
    price lies between the previous average price (0 for a new position)
    and the fill price. *)
Theorem process_fill_avg_between (st : pm_state) (order_id : string) (o : order) (q pr : Q) :
  dget order_id (orders st) = Some o ->
  forall p', dget (ord_position_id o) (positions (process_fill st order_id q pr)) = Some p' ->
  ~ pos_quantity p' == 0 ->
  Qmin (snd (current_qty_avg st (ord_position_id o))) pr <= pos_avg_price p'
  <= Qmax (snd (current_qty_avg st (ord_position_id o))) pr.
Proof.
  intros Ho p' Hp' Hnz.
  rewrite (process_fill_stored st order_id o q pr Ho) in Hp'.
  injection Hp' as <-. simpl in Hnz |- *.
  apply new_avg_price_between. exact Hnz.
Qed.

Lemma process_fill_avg_between_witness :
  (let st := app_pm sample_app in
   exists p', dget "p1" (positions (process_fill st "u1" 60 20)) = Some p' /\
   Qmin 10 20 <= pos_avg_price p' <= Qmax 10 20).
Proof.
  simpl. eexists. split; [reflexivity|].
  apply (process_fill_avg_between (app_pm sample_app) "u1" sample_order 60 20 eq_refl).
  - reflexivity.
  - vm_compute. discriminate.
Defined.

(** X7: a fill rewrites only the position of its order, and rebuilds that
    position from the order's fields: symbol, strategy, instrument type, the
    option fields for an OPTION (none otherwise) and the order's pair id, so
    a pair id the position carried is dropped by a fill from an order
    without one; the order book and the id counter are left as they were. *)
Theorem process_fill_rebuilds_position (st : pm_state) (order_id : string) (o : order) (q pr : Q) :
  dget order_id (orders st) = Some o ->
  let st' := process_fill st order_id q pr in
  orders st' = orders st /\ uuid_next st' = uuid_next st /\
  (forall pid, pid <> ord_position_id o -> dget pid (positions st') = dget pid (positions st)) /\
  exists p', dget (ord_position_id o) (positions st') = Some p' /\
    pos_symbol p' = ord_symbol o /\ pos_strategy_id p' = ord_strategy_id o /\
    pos_instrument_type p' = ord_instrument_type o /\
    (ord_instrument_type o <> "OPTION" -> pos_strike p' = None /\ pos_option_type p' = None) /\
    (ord_pair_id o = None -> pos_pair_id p' = None).
Proof.
  intros Ho st'. split; [apply orders_process_fill|]. split; [apply uuid_next_process_fill|].
  split; [intros pid Hne; exact (process_fill_other st order_id o q pr pid Ho Hne)|].
  eexists. split; [exact (process_fill_stored st order_id o q pr Ho)|]. simpl.
  do 3 (split; [reflexivity|]). split.
  - intros Hne. rewrite (streq_false _ _ Hne). split; reflexivity.
  - intros ->. reflexivity.
Qed.

Lemma process_fill_rebuilds_position_witness :
  dget "u1" (orders (app_pm sample_app)) = Some sample_order /\
  orders (process_fill (app_pm sample_app) "u1" 60 20) = orders (app_pm sample_app).
Proof.
  split; [reflexivity|].
  exact (proj1 (process_fill_rebuilds_position (app_pm sample_app) "u1" sample_order 60 20 eq_refl)).
Defined.

(** ** Dynamic-Limit pricing *)

Lemma round_half_even_close (x : Q) :
  x - (1 # 2) <= inject_Z (round_half_even x) <= x + (1 # 2).
Proof.
  assert (Hf1 := Qfloor_le x). assert (Hf2 := Qlt_floor x).
  rewrite inject_Z_plus in Hf2. change (inject_Z 1) with 1 in Hf2. unfold round_half_even.
  set (f := Qfloor x) in *.
  destruct (Qltb (x - inject_Z f) (1 # 2)) eqn:E1.
  - apply Qltb_true in E1. lra.
  - apply Qltb_false in E1.
    assert (Hup : x - (1 # 2) <= inject_Z (f + 1) <= x + (1 # 2)).
    { rewrite inject_Z_plus. change (inject_Z 1) with 1 in *. lra. }
    destruct (Qltb (1 # 2) (x - inject_Z f)) eqn:E2; [exact Hup|].
    apply Qltb_false in E2.
    destruct (Z.even f); [lra | exact Hup].
Qed.

Lemma tick_round_close (mid tick : Q) :
  0 < tick ->
  exists p, tick_round mid tick = Returned p /\ mid - tick / 2 <= p <= mid + tick / 2.
Proof.
  intros Ht. unfold tick_round.
  destruct (Qeq_bool tick 0) eqn:E; [apply Qeq_bool_iff in E; lra|].
  eexists. split; [reflexivity|].
  destruct (round_half_even_close (mid / tick)) as [H1 H2].
  set (R := inject_Z (round_half_even (mid / tick))) in *.
  split.
  - apply Qle_trans with ((mid / tick - (1 # 2)) * tick).
    + setoid_replace ((mid / tick - (1 # 2)) * tick) with (mid - tick / 2) by (field; lra).
      apply Qle_refl.
    + apply Qmult_le_r; [exact Ht | exact H1].
  - apply Qle_trans with ((mid / tick + (1 # 2)) * tick).
    + apply Qmult_le_r; [exact Ht | exact H2].
    + setoid_replace ((mid / tick + (1 # 2)) * tick) with (mid + tick / 2) by (field; lra).
      apply Qle_refl.
Qed.

(** X8: with a positive bid below the ask and a positive tick, the limit
    order [create_order] of limit_orders.py builds never crosses the
    spread: a BUY is priced strictly below the ask and a SELL strictly
    above the bid; when the spread is at least one tick, the price also
    stays inside [bid, ask]. *)
Theorem dl_create_order_within_spread (sig : signal) (m : market) (symbol : string)
    (bid ask tick : Q) :
  q_bid (get_quote m symbol) = Some bid -> q_ask (get_quote m symbol) = Some ask ->
  get_tick_size m symbol = Some tick -> 0 < bid -> bid < ask -> 0 < tick ->
  exists o p, dl_create_order sig m symbol = Returned (Some o) /\ io_lmtPrice o = Some p /\
    io_orderType o = "LMT" /\ io_tif o = "DAY" /\
    (sig_action sig = "BUY" -> p < ask /\ (tick <= ask - bid -> bid <= p)) /\
    (sig_action sig <> "BUY" -> bid < p /\ (tick <= ask - bid -> p <= ask)).
Proof.
  intros Hb Ha Ht Hb0 Hba Ht0.
  unfold dl_create_order. rewrite Ht. unfold dl_create_price. rewrite Hb, Ha.
  unfold positive_price.
  assert (E1 : Qltb 0 bid = true) by (apply Qltb_true; exact Hb0).
  assert (E2 : Qltb 0 ask = true) by (apply Qltb_true; lra).
  rewrite E1, E2.
  destruct (tick_round_close ((bid + ask) / 2) tick Ht0) as [r [Hr [Hr1 Hr2]]].
  rewrite Hr.
  assert (Hmid : (bid + ask) / 2 == (bid + ask) * (1 # 2)) by reflexivity.
  destruct (streq (sig_action sig) "BUY") eqn:Ea.
  - apply streq_true in Ea.
    destruct (Qle_bool ask r) eqn:Ear.
    + eexists; eexists. split; [reflexivity|]. split; [reflexivity|].
      split; [reflexivity|]. split; [reflexivity|]. split.
      * intros _. split; [exact Hba | intros _; apply Qle_refl].
      * intros H; contradiction.
    + assert (Hra : r < ask).
      { apply Qnot_le_lt. intros H. apply Qle_bool_iff in H. congruence. }
      eexists; eexists. split; [reflexivity|]. split; [reflexivity|].
      split; [reflexivity|]. split; [reflexivity|]. split.
      * intros _. split; [exact Hra|]. intros Hsp.
        assert (Hd : tick / 2 == tick * (1 # 2)) by reflexivity.
        rewrite Hmid, Hd in Hr1. lra.
      * intros H; contradiction.
  - destruct (Qle_bool r bid) eqn:Erb.
    + eexists; eexists. split; [reflexivity|]. split; [reflexivity|].
      split; [reflexivity|]. split; [reflexivity|]. split.
      * intros H. rewrite H, streq_refl in Ea. discriminate.
      * intros _. split; [exact Hba | intros _; apply Qle_refl].
    + assert (Hrb : bid < r).
      { apply Qnot_le_lt. intros H. apply Qle_bool_iff in H. congruence. }
      eexists; eexists. split; [reflexivity|]. split; [reflexivity|].
      split; [reflexivity|]. split; [reflexivity|]. split.
      * intros H. rewrite H, streq_refl in Ea. discriminate.
      * intros _. split; [exact Hrb|]. intros Hsp.
        assert (Hd : tick / 2 == tick * (1 # 2)) by reflexivity.
        rewrite Hmid, Hd in Hr2. lra.
Qed.

Lemma dl_create_order_within_spread_witness :
  exists o p, dl_create_order dl_signal dl_market "XYZ" = Returned (Some o) /\
    io_lmtPrice o = Some p /\ p < 1005 # 100.
Proof.
  destruct (dl_create_order_within_spread dl_signal dl_market "XYZ" (995 # 100) (1005 # 100) (5 # 100)
              eq_refl eq_refl eq_refl ltac:(vm_compute; reflexivity) ltac:(vm_compute; reflexivity)
              ltac:(vm_compute; reflexivity))
    as [o [p [H1 [H2 [_ [_ [Hbuy _]]]]]]].
  exists o, p. split; [exact H1|]. split; [exact H2|]. apply (Hbuy eq_refl).
Defined.

(** ** How often a strategy touches the gateway *)

Lemma modify_order_shape (s : xstrategy) (a : app) (changes : list order_change) :
  modify_order s a changes = (s, a) \/
  exists ib o, modify_order s a changes = (xs_set_current s (Some o), placeOrder a ib o).
Proof.
  unfold modify_order.
  destruct (xs_ib_order_id s) as [ib|], (xs_current_order s) as [cur|]; try (left; reflexivity).
  destruct (negb (ib =? 0)%Z && streq (xs_status s) "ACTIVE"); [right | left; reflexivity].
  eexists; eexists; reflexivity.
Qed.

Lemma dl_reprice_shape (s : xstrategy) (a : app) (m : market) (symbol : string) :
  dl_reprice s a m symbol = (s, a) \/
  exists changes, dl_reprice s a m symbol =
    (xs_incr_attempts (fst (modify_order s a changes)), snd (modify_order s a changes)).
Proof.
  unfold dl_reprice.
  repeat match goal with
  | |- context [let '(_, _) := modify_order ?s ?a ?c in _] =>
      right; exists c; destruct (modify_order s a c); reflexivity
  | |- context [match ?x with _ => _ end] => destruct x
  | |- context [if ?b then _ else _] => destruct b
  end; left; reflexivity.
Qed.

Lemma check_and_update_shape (s : xstrategy) (a : app) (m : market) (symbol : string) (now : Q) :
  check_and_update s a m symbol now = (s, a) \/
  (exists T, xs_variant s = DynamicLimit T /\ xs_converted_to_market s = false /\
     check_and_update s a m symbol now =
       (xs_set_converted (fst (modify_order s a market_conversion)),
        snd (modify_order s a market_conversion))) \/
  (exists T changes, xs_variant s = DynamicLimit T /\ xs_converted_to_market s = false /\
     (xs_attempts s < 3)%nat /\
     check_and_update s a m symbol now =
       (xs_incr_attempts (fst (modify_order s a changes)), snd (modify_order s a changes))).
Proof.
  unfold check_and_update. destruct (xs_variant s) as [| |T] eqn:Ev; try (left; reflexivity).
  destruct (negb (streq (xs_status s) "ACTIVE") || negb (opt_str_truthy (xs_order_id s)));
    [left; reflexivity|].
  destruct (xs_converted_to_market s) eqn:Ec; simpl; [left; reflexivity|].
  destruct (timeout_exceeded s now (effective_timeout T (xs_has_partial_fill s))).
  - right; left. exists T. split; [reflexivity|]. split; [reflexivity|].
    destruct (modify_order s a market_conversion); reflexivity.
  - destruct (Nat.ltb (xs_attempts s) 3) eqn:Ea; [|left; reflexivity].
    apply Nat.ltb_lt in Ea.
    destruct (dl_reprice_shape s a m symbol) as [H|[ch H]]; rewrite H; [left; reflexivity|].
    right; right. exists T, ch. auto.
Qed.

Lemma modify_order_log (s : xstrategy) (a : app) (changes : list order_change) :
  (length (gw_log (snd (modify_order s a changes))) <= S (length (gw_log a)))%nat /\
  xs_variant (fst (modify_order s a changes)) = xs_variant s /\
  xs_attempts (fst (modify_order s a changes)) = xs_attempts s /\
  xs_converted_to_market (fst (modify_order s a changes)) = xs_converted_to_market s /\
  xs_status (fst (modify_order s a changes)) = xs_status s /\
  active_executions (snd (modify_order s a changes)) = active_executions a.
Proof.
  destruct (modify_order_shape s a changes) as [H|[ib [o H]]]; rewrite H; simpl.
  - repeat split; lia.
  - rewrite length_app. simpl. repeat split; lia.
Qed.

Lemma check_and_update_budget (s : xstrategy) (a : app) (m : market) (symbol : string) (now : Q) :
  let '(s1, a1) := check_and_update s a m symbol now in
  (length (gw_log a1) + modification_budget s1 <= length (gw_log a) + modification_budget s)%nat.
Proof.
  destruct (check_and_update_shape s a m symbol now)
    as [H|[[T [Hv [Hc H]]]|[T [ch [Hv [Hc [Ha H]]]]]]]; rewrite H; [lia| |].
  - destruct (modify_order_log s a market_conversion) as [Hl [Hv' _]].
    unfold modification_budget. simpl. rewrite Hv', Hv, Hc. lia.
  - destruct (modify_order_log s a ch) as [Hl [Hv' [Ha' [Hc' _]]]].
    unfold modification_budget. simpl. rewrite Hv', Hv, Ha', Hc', Hc.
    destruct (xs_attempts s) as [|[|[|k]]]; lia.
Qed.

(** X9: over any interleaving of periodic checks and status callbacks, a
    strategy adds at most [modification_budget] calls to the gateway log:
    none for IOC-Market and Plain-Limit, whose checks do nothing, and for a
    Dynamic-Limit order at most one per remaining re-pricing attempt
    (max_attempts = 3) plus one market conversion, none once converted. *)
Theorem run_strategy_gateway_budget (s : xstrategy) (a : app) (evs : list xevent) :
  (length (gw_log (snd (run_strategy s a evs))) <= length (gw_log a) + modification_budget s)%nat.
Proof.
  revert s a. induction evs as [|[m symbol now|status f r p] rest IH]; intros s a; simpl.
  - lia.
  - pose proof (check_and_update_budget s a m symbol now) as Hb.
    destruct (check_and_update s a m symbol now) as [s1 a1].
    specialize (IH s1 a1). lia.
  - specialize (IH (process_order_status s status f r p) a).
    assert (Hb : modification_budget (process_order_status s status f r p) = modification_budget s).
    { unfold modification_budget, process_order_status.
      destruct (Qltb 0 f && Qltb 0 r); [reflexivity|].
      destruct (streq status "Filled"); [reflexivity|].
      destruct (streq status "Cancelled"); reflexivity. }
    lia.
Qed.

(** ** Cumulative fill callbacks *)

Lemma max_filled_compat (x y : Q) (cbs : list (string * Q * Q * Q * Q)) :
  x == y -> max_filled x cbs == max_filled y cbs.
Proof.
  unfold max_filled. revert x y. induction cbs as [|[[[[st f] r] p] l] rest IH]; intros x y H; simpl.
  - exact H.
  - apply IH. rewrite H. reflexivity.
Qed.

Lemma orderStatus_progress (a : app) (ib : Z) (u : string) (o : order)
    (status : string) (f r p l : Q) :
  zget ib (ib_to_uuid_map a) = Some u -> str_truthy u = true ->
  dget u (orders (app_pm a)) = Some o -> 0 <= ord_last_processed_fill o ->
  let a' := orderStatus a ib status f r p l in
  exists o', dget u (orders (app_pm a')) = Some o' /\
    ord_position_id o' = ord_position_id o /\ ord_action o' = ord_action o /\
    ord_last_processed_fill o' == Qmax (ord_last_processed_fill o) f /\
    fst (current_qty_avg (app_pm a') (ord_position_id o)) ==
      fst (current_qty_avg (app_pm a) (ord_position_id o))
      + signed_fill (ord_action o) (ord_last_processed_fill o' - ord_last_processed_fill o).
Proof.
  intros Hm Ht Ho Hl a'. unfold a', orderStatus. rewrite Hm, Ht. cbv beta iota delta [negb].
  unfold ledger_fill. rewrite !app_pm_dispatch_status, Ho.
  set (d := dispatch_status a u status f r p).
  assert (Hd : app_pm d = app_pm a) by apply app_pm_dispatch_status.
  assert (Hkeep : f <= ord_last_processed_fill o ->
    exists o', dget u (orders (app_pm d)) = Some o' /\
    ord_position_id o' = ord_position_id o /\ ord_action o' = ord_action o /\
    ord_last_processed_fill o' == Qmax (ord_last_processed_fill o) f /\
    fst (current_qty_avg (app_pm d) (ord_position_id o)) ==
      fst (current_qty_avg (app_pm a) (ord_position_id o))
      + signed_fill (ord_action o) (ord_last_processed_fill o' - ord_last_processed_fill o)).
  { intros Hle. exists o. rewrite Hd. split; [exact Ho|]. split; [reflexivity|]. split; [reflexivity|].
    split; [symmetry; apply Q.max_l; exact Hle|].
    unfold signed_fill. destruct (streq (ord_action o) "BUY"); ring. }
  destruct (Qltb 0 f) eqn:Ef.
  - destruct (Qltb 0 (f - ord_last_processed_fill o)) eqn:En.
    + apply Qltb_true in En.
      set (st2 := process_fill (app_pm a) u (f - ord_last_processed_fill o) l).
      assert (Ho2 : dget u (orders st2) = Some o) by (unfold st2; rewrite orders_process_fill; exact Ho).
      exists (with_fill_progress o f (Qeq_bool r 0)). simpl.
      unfold update_order_progress. rewrite Ho2. simpl.
      rewrite dget_dset_same. split; [reflexivity|]. split; [reflexivity|]. split; [reflexivity|].
      split; [symmetry; apply Q.max_r; lra|].
      unfold current_qty_avg at 1. cbn [positions set_orders].
      unfold st2. rewrite (process_fill_stored (app_pm a) u o (f - ord_last_processed_fill o) l Ho).
      cbn [fst pos_quantity ord_last_processed_fill]. reflexivity.
    + apply Qltb_false in En. apply Hkeep. lra.
  - apply Qltb_false in Ef. apply Hkeep. lra.
Qed.

(** X10: whatever cumulative [orderStatus] callbacks arrive for a mapped
    broker id, in whatever order and with repeats, the ledger applies their
    running maximum exactly once: afterwards the order's
    [last_processed_fill] equals the largest filled amount seen (starting
    from its previous value) and its position has moved by exactly the
    signed difference. *)
Theorem order_status_seq_applies_max (a : app) (ib : Z) (u : string) (o : order)
    (cbs : list (string * Q * Q * Q * Q)) :
  zget ib (ib_to_uuid_map a) = Some u -> str_truthy u = true ->
  dget u (orders (app_pm a)) = Some o -> 0 <= ord_last_processed_fill o ->
  let a' := order_status_seq a ib cbs in
  exists o', dget u (orders (app_pm a')) = Some o' /\
    ord_last_processed_fill o' == max_filled (ord_last_processed_fill o) cbs /\
    fst (current_qty_avg (app_pm a') (ord_position_id o)) ==
      fst (current_qty_avg (app_pm a) (ord_position_id o))
      + signed_fill (ord_action o) (max_filled (ord_last_processed_fill o) cbs - ord_last_processed_fill o).
Proof.
  revert a o. induction cbs as [|[[[[status f] r] p] l] rest IH]; intros a o Hm Ht Ho Hl a'.
  - exists o. unfold a'. simpl. split; [exact Ho|]. split; [reflexivity|].
    unfold signed_fill. destruct (streq (ord_action o) "BUY"); ring.
  - unfold a'. simpl order_status_seq.
    destruct (orderStatus_progress a ib u o status f r p l Hm Ht Ho Hl)
      as [o1 [Ho1 [Hp1 [Hact1 [Hl1 Hq1]]]]].
    assert (Hl1' : 0 <= ord_last_processed_fill o1).
    { rewrite Hl1. apply Qle_trans with (ord_last_processed_fill o); [exact Hl | apply Q.le_max_l]. }
    destruct (IH (orderStatus a ib status f r p l) o1) as [o2 [Ho2 [Hl2 Hq2]]];
      [rewrite map_orderStatus; exact Hm | exact Ht | exact Ho1 | exact Hl1' |].
    exists o2. split; [exact Ho2|].
    assert (HM : max_filled (ord_last_processed_fill o1) rest
                 == max_filled (ord_last_processed_fill o) ((status, f, r, p, l) :: rest)).
    { change (max_filled (ord_last_processed_fill o) ((status, f, r, p, l) :: rest))
        with (max_filled (Qmax (ord_last_processed_fill o) f) rest).
      apply max_filled_compat. exact Hl1. }
    split; [lra|].
    rewrite Hp1, Hact1 in Hq2. rewrite Hq2, Hq1.
    unfold signed_fill. destruct (streq (ord_action o) "BUY"); lra.
Qed.

Lemma order_status_seq_applies_max_witness :
  exists o', dget "u1" (orders (app_pm (order_status_seq sample_app 7
      [("Submitted", 60, 40, 10, 10); ("Submitted", 50, 50, 10, 10); ("Filled", 100, 0, 10, 10)])))
    = Some o' /\ ord_last_processed_fill o' == 100.
Proof.
  destruct (order_status_seq_applies_max sample_app 7 "u1" sample_order
      [("Submitted", 60, 40, 10, 10); ("Submitted", 50, 50, 10, 10); ("Filled", 100, 0, 10, 10)]
      eq_refl eq_refl eq_refl ltac:(vm_compute; discriminate)) as [o' [Ho [Hl _]]].
  exists o'. split; [exact Ho|]. rewrite Hl. vm_compute. reflexivity.
Defined.

(** ** One pass of [monitor_executions] *)

Lemma check_and_update_keeps_status (s : xstrategy) (a : app) (m : market) (symbol : string) (now : Q) :
  xs_status (fst (check_and_update s a m symbol now)) = xs_status s /\
  active_executions (snd (check_and_update s a m symbol now)) = active_executions a.
Proof.
  destruct (check_and_update_shape s a m symbol now)
    as [H|[[T [_ [_ H]]]|[T [ch [_ [_ [_ H]]]]]]]; rewrite H; simpl.
  - split; reflexivity.
  - destruct (modify_order_log s a market_conversion) as [_ [_ [_ [_ [Hs Ha]]]]].
    split; [exact Hs | exact Ha].
  - destruct (modify_order_log s a ch) as [_ [_ [_ [_ [Hs Ha]]]]].
    split; [exact Hs | exact Ha].
Qed.

Lemma live_monitor_one_step (m : market) (fs : xstrategy -> string) (now : Q) (la : live_app)
    (k0 : pykey) (ls : live_strategy) :
  let la1 := live_monitor_one m fs now la (k0, ls) in
  (forall k, k <> k0 -> pget k (la_executions la1) = pget k (la_executions la)) /\
  match ls with
  | LiveLegacy l => la1 = la
  | LiveX s0 =>
      if is_complete s0 then pget k0 (la_executions la1) = None
      else exists s', pget k0 (la_executions la1) = Some (LiveX s') /\ xs_status s' = xs_status s0
  end.
Proof.
  intros la1. unfold la1, live_monitor_one. destruct ls as [s0|l]; [|split; reflexivity].
  destruct (check_and_update_keeps_status s0 (la_app la) m (fs s0) now) as [Hs _].
  destruct (check_and_update s0 (la_app la) m (fs s0) now) as [s1 a1]. simpl in Hs.
  assert (Hc : is_complete s1 = is_complete s0) by (unfold is_complete; rewrite Hs; reflexivity).
  rewrite Hc. destruct (is_complete s0); cbn [la_executions].
  - split.
    + intros k Hk. rewrite pget_ppop, (pykey_eqb_false _ _ Hk), pget_pset_other by exact Hk.
      reflexivity.
    + rewrite pget_ppop, pykey_eqb_refl. reflexivity.
  - split.
    + intros k Hk. rewrite pget_pset_other by exact Hk. reflexivity.
    + exists s1. split; [apply pget_pset_same | exact Hs].
Qed.

Lemma live_monitor_fold (m : market) (fs : xstrategy -> string) (now : Q)
    (L : list (pykey * live_strategy)) (la : live_app) :
  NoDup (map fst L) ->
  let la' := fold_left (live_monitor_one m fs now) L la in
  (forall k, ~ In k (map fst L) -> pget k (la_executions la') = pget k (la_executions la)) /\
  (forall k ls, In (k, ls) L -> pget k (la_executions la) = Some ls ->
     match ls with
     | LiveLegacy l => pget k (la_executions la') = Some (LiveLegacy l)
     | LiveX s =>
         if is_complete s then pget k (la_executions la') = None
         else exists s', pget k (la_executions la') = Some (LiveX s') /\ xs_status s' = xs_status s
     end).
Proof.
  revert la. induction L as [|[k0 ls0] rest IH]; intros la Hnd la'.
  - split; [reflexivity | intros k ls []].
  - simpl in Hnd. inversion Hnd as [|? ? Hnotin Hnd']. subst.
    destruct (live_monitor_one_step m fs now la k0 ls0) as [Hother Hself].
    destruct (IH (live_monitor_one m fs now la (k0, ls0)) Hnd') as [Hout Hin].
    subst la'. cbn [fold_left].
    split.
    + intros k Hk. simpl in Hk. rewrite Hout by tauto. apply Hother. intros ->. tauto.
    + intros k ls [Heq|Hk] Hget.
      * injection Heq as Hk Hls. subst k ls. rewrite (Hout k0 Hnotin).
        destruct ls0 as [s0|l]; [exact Hself|]. rewrite Hself. exact Hget.
      * assert (Hne : k <> k0) by (intros ->; apply Hnotin; apply (in_map fst rest (k0, ls)); exact Hk).
        apply (Hin k ls Hk). rewrite Hother by exact Hne. exact Hget.
Qed.

(** X11: one pass of [monitor_executions] over the running application's
    [active_executions] (whose keys are distinct, as a dict's are) removes
    exactly the execution_base strategies that were already complete when
    the pass began, keeps every other one under its key with its status
    unchanged (its [check_and_update] never completes it), and leaves every
    dynamic_limit.py strategy exactly as it was, complete or not: its
    missing [check_and_update] raises before [is_complete] is asked. *)
Theorem monitor_pass_removes_completed (m : market) (fs : xstrategy -> string) (now : Q)
    (la : live_app) :
  NoDup (map fst (la_executions la)) ->
  forall k,
  match pget k (la_executions la) with
  | None => pget k (la_executions (live_monitor_pass m fs now la)) = None
  | Some (LiveLegacy l) => pget k (la_executions (live_monitor_pass m fs now la)) = Some (LiveLegacy l)
  | Some (LiveX s) =>
      if is_complete s then pget k (la_executions (live_monitor_pass m fs now la)) = None
      else exists s', pget k (la_executions (live_monitor_pass m fs now la)) = Some (LiveX s') /\
                      xs_status s' = xs_status s
  end.
Proof.
  intros Hnd k. unfold live_monitor_pass.
  destruct (live_monitor_fold m fs now (la_executions la) la Hnd) as [Hout Hin].
  destruct (pget k (la_executions la)) as [ls|] eqn:E.
  - exact (Hin k ls (pget_in k ls _ E) E).
  - rewrite (Hout k (pget_none_notin k _ E)). exact E.
Qed.

Lemma monitor_pass_removes_completed_witness :
  let la := mkLive fresh_app
              [(KStr "uuid-1", LiveX dl_live);
               (KStr "uuid-2", LiveX (xs_set_status dl_live "COMPLETED"));
               (KInt 3, LiveLegacy (Legacy.set_status (Legacy.init dl_signal 60 0) "COMPLETED"))] in
  pget (KStr "uuid-2") (la_executions (live_monitor_pass dl_market (fun _ => "XYZ") 5 la)) = None.
Proof.
  intros la.
  assert (Hnd : NoDup (map fst (la_executions la))).
  { simpl. repeat constructor; simpl; intros H; repeat destruct H as [H|H]; try discriminate; exact H. }
  exact (monitor_pass_removes_completed dl_market (fun _ => "XYZ") 5 la Hnd (KStr "uuid-2")).
Defined.
